(** * vUnit.js: viewport-to-stylesheet synchronisation

    A shallow embedding of [src/index.js] (vUnit 0.2.0) and the properties
    of its rule generator, change detector, stylesheet publisher and
    observer cycle.

    Layout of the development:
    - [JS]   : the parts of the language the source relies on (Number
               arithmetic and Number-to-String, [Math.min]/[Math.max],
               [String.prototype.replace], truthiness and [||],
               [Object.keys], exceptions);
    - [DOM]  : elements, the document, [getElementById], [removeChild],
               [appendChild];
    - [VUnit]: the program itself, one definition per source function,
               over a world made of the instance and the host;
    - the vocabulary of the properties and the sample inputs;
    - the lemmas on generation, text, cycles and publication;
    - the claims.

    Conventions.  The constructor is taken as called on an instance
    ([new vUnit(options)]).  A string is a sequence of 8-bit characters.
    A callback is known by its source text and by the viewport sizes on
    which it throws; calling it records the call, and then it returns or
    throws.  A callback is taken not to write to the instance, the
    document or the host. *)

From Stdlib Require Import ZArith List String Ascii Bool Lia.
From Stdlib Require Import Numbers.DecimalString.
From Stdlib Require Import Floats.PrimFloat Floats.FloatClass Floats.SpecFloat Floats.FloatOps.
From Stdlib Require Import Numbers.Cyclic.Int63.Uint63.
Import ListNotations.

Local Open Scope string_scope.
Local Open Scope Z_scope.

(* ===================================================================== *)
(** * The JavaScript fragment used by the source *)
(* ===================================================================== *)

Module JS.

(** ** Numbers

    A JavaScript Number is an IEEE 754 binary64 value; it is modelled by
    Rocq's primitive [float], whose [PrimFloat.mul] and [PrimFloat.div]
    are the binary64 operations with round-to-nearest-even. *)

Definition number := float.

(** An integer host value (a DOM [long], a loop counter) as a Number.
    Exact for |z| < 2^53. *)
Definition Z_to_number (z : Z) : number :=
  if z <? 0 then PrimFloat.opp (PrimFloat.of_uint63 (Uint63.of_Z (- z)))
  else PrimFloat.of_uint63 (Uint63.of_Z z).

Definition is_neg_zero (x : number) : bool :=
  match PrimFloat.classify x with NZero => true | _ => false end.

Definition is_pos_zero (x : number) : bool :=
  match PrimFloat.classify x with PZero => true | _ => false end.

(** [Math.min(a, b)]: NaN if an argument is NaN; otherwise the running
    minimum starting from +Infinity, with -0 below +0. *)
Definition min_step (lowest x : number) : number :=
  if is_neg_zero x && is_pos_zero lowest then x
  else if PrimFloat.ltb x lowest then x
  else lowest.

Definition Math_min (a b : number) : number :=
  if PrimFloat.is_nan a || PrimFloat.is_nan b then PrimFloat.nan
  else min_step (min_step PrimFloat.infinity a) b.

(** [Math.max(a, b)]: the dual, starting from -Infinity, with +0 above -0. *)
Definition max_step (highest x : number) : number :=
  if is_pos_zero x && is_neg_zero highest then x
  else if PrimFloat.ltb highest x then x
  else highest.

Definition Math_max (a b : number) : number :=
  if PrimFloat.is_nan a || PrimFloat.is_nan b then PrimFloat.nan
  else max_step (max_step PrimFloat.neg_infinity a) b.

(** ** Number::toString (radix 10)

    For a finite non-zero [x] the language picks integers [n], [k], [s]
    with [10^(k-1) <= s < 10^k], [s * 10^(n-k)] rounding to [x], and [k]
    minimal; among several [s] the one closest to [x], the even one on a
    tie.  [x] is [m * 2^e] exactly, so everything below is integer
    arithmetic. *)

Section Shortest.
(** The positive finite value [m * 2^e], [m] and [e] as [Prim2SF] gives
    them. *)
Variables (m : Z) (e : Z).

(** Values are counted in units of [2^(e-2)]: [x] is [4m] units and the
    half-way points to its two neighbours are [4m+2] above and [4m-2]
    below ([4m-1] when [x] is a power of two, where the spacing below
    halves). *)
Definition unit_exp : Z := e - 2.
Definition x_units : Z := 4 * m.
Definition hi_units : Z := 4 * m + 2.
Definition lo_units : Z :=
  if (m =? 2 ^ 52) && (-1074 <? e) then 4 * m - 1 else 4 * m - 2.
(** A half-way point rounds to [x] when [m] is even. *)
Definition closed : bool := Z.even m.

(** [compare_decimal s p u]: [s * 10^p] against [u] units. *)
Definition compare_decimal (s p u : Z) : comparison :=
  let lhs := s * 10 ^ (Z.max p 0) * 2 ^ (Z.max (- unit_exp) 0) in
  let rhs := u * 2 ^ (Z.max unit_exp 0) * 10 ^ (Z.max (- p) 0) in
  lhs ?= rhs.

(** [s * 10^p] rounds to [x]. *)
Definition rounds_to_x (s p : Z) : bool :=
  match compare_decimal s p lo_units, compare_decimal s p hi_units with
  | Gt, Lt => true
  | Eq, Lt | Gt, Eq => closed
  | _, _ => false
  end.

(** [floor (x / 10^p)]. *)
Definition floor_scaled (p : Z) : Z :=
  (x_units * 2 ^ (Z.max unit_exp 0) * 10 ^ (Z.max (- p) 0))
  / (10 ^ (Z.max p 0) * 2 ^ (Z.max (- unit_exp) 0)).

(** The least [n] with [x < 10^n], searched upwards from [n]. *)
Fixpoint decimal_exponent (fuel : nat) (n : Z) : Z :=
  match fuel with
  | O => n
  | S fuel' =>
      match compare_decimal 1 n x_units with
      | Gt => n
      | _ => decimal_exponent fuel' (n + 1)
      end
  end.

(** The [k]-digit [s] for exponent [n], if one rounds to [x]: the
    candidates are the two integers around [x / 10^(n-k)]. *)
Definition candidate (k n : Z) : option Z :=
  let p := n - k in
  let s1 := floor_scaled p in
  let s2 := s1 + 1 in
  let ok s := (10 ^ (k - 1) <=? s) && (s <? 10 ^ k) && rounds_to_x s p in
  match ok s1, ok s2 with
  | true, true =>
      (* s1 is closer iff 2x < (s1+s2) * 10^p *)
      match compare_decimal (s1 + s2) p (2 * x_units) with
      | Gt => Some s1
      | Lt => Some s2
      | Eq => Some (if Z.even s1 then s1 else s2)
      end
  | true, false => Some s1
  | false, true => Some s2
  | false, false => None
  end.

(** Smallest [k] first; 17 digits always identify a binary64 value. *)
Fixpoint shortest (fuel : nat) (k n0 : Z) : Z * Z * Z :=
  match fuel with
  | O => (n0, k, floor_scaled (n0 - k))
  | S fuel' =>
      match candidate k n0 with
      | Some s => (n0, k, s)
      | None =>
          match candidate k (n0 + 1) with
          | Some s => (n0 + 1, k, s)
          | None => shortest fuel' (k + 1) n0
          end
      end
  end.

(** A lower bound for that [n]: [x >= 2^(e + log2 m)] and
    [log10 2 < 0.30103], with a margin of 2. *)
Definition exponent_guess : Z :=
  (e + Z.log2 m) * 30103 / 100000 - 2.

Definition n_k_s : Z * Z * Z :=
  shortest 17 1 (decimal_exponent 700 exponent_guess).
End Shortest.

(** The decimal digits of a non-negative integer. *)
Definition digits (s : Z) : string :=
  NilZero.string_of_uint (N.to_uint (Z.to_N s)).

Fixpoint zeros (n : nat) : string :=
  match n with
  | O => ""
  | S n' => String "0" (zeros n')
  end.

Definition take (n : Z) (s : string) : string := substring 0 (Z.to_nat n) s.
Definition drop (n : Z) (s : string) : string :=
  substring (Z.to_nat n) (String.length s - Z.to_nat n) s.

(** Steps 6 to 11 of Number::toString: plain digits, a decimal point, a
    leading [0.], or exponent notation. *)
Definition format_decimal (n k s : Z) : string :=
  let ds := digits s in
  if (k <=? n) && (n <=? 21) then ds ++ zeros (Z.to_nat (n - k))
  else if (0 <? n) && (n <=? 21) then take n ds ++ "." ++ drop n ds
  else if (-6 <? n) && (n <=? 0) then "0." ++ zeros (Z.to_nat (- n)) ++ ds
  else
    let exponent := (if n - 1 <? 0 then "-" else "+") ++ digits (Z.abs (n - 1)) in
    if k =? 1 then ds ++ "e" ++ exponent
    else take 1 ds ++ "." ++ drop 1 ds ++ "e" ++ exponent.

Definition Number_toString (x : number) : string :=
  match Prim2SF x with
  | S754_nan => "NaN"
  | S754_zero _ => "0"
  | S754_infinity sign => if sign then "-Infinity" else "Infinity"
  | S754_finite sign m e =>
      let '(n, k, s) := n_k_s (Zpos m) e in
      (if sign then "-" else "") ++ format_decimal n k s
  end.

(** ** Strings: [String.prototype.replace] with a string pattern *)

Fixpoint skip (n : nat) (s : string) : string :=
  match n, s with
  | S n', String _ s' => skip n' s'
  | _, _ => s
  end.

(** The text before and after the first occurrence of [pat] in [s]. *)
Fixpoint split_first (pat s : string) {struct s} : option (string * string) :=
  if prefix pat s then Some ("", skip (String.length pat) s)
  else
    match s with
    | "" => None
    | String c s' =>
        match split_first pat s' with
        | Some (before, after) => Some (String c before, after)
        | None => None
        end
    end.

(** GetSubstitution for a string pattern (no captures): [$$] is a dollar
    sign, [$&] the matched text, [$`] the text before the match, [$'] the
    text after it; any other [$] stands for itself. *)
Fixpoint GetSubstitution (matched before after template : string) : string :=
  match template with
  | "" => ""
  | String c rest =>
      if Ascii.eqb c "$" then
        match rest with
        | "" => "$"
        | String d r =>
            if Ascii.eqb d "$" then
              "$" ++ GetSubstitution matched before after r
            else if Ascii.eqb d "&" then
              matched ++ GetSubstitution matched before after r
            else if Ascii.eqb d "`" then
              before ++ GetSubstitution matched before after r
            else if Ascii.eqb d "'" then
              after ++ GetSubstitution matched before after r
            else String "$" (GetSubstitution matched before after rest)
        end
      else String c (GetSubstitution matched before after rest)
  end.

(** [s.replace(pat, replacement)]: only the first occurrence is replaced;
    [s] is returned unchanged when [pat] does not occur. *)
Definition String_replace (s pat replacement : string) : string :=
  match split_first pat s with
  | None => s
  | Some (before, after) =>
      before ++ GetSubstitution pat before after replacement ++ after
  end.

(** ** Values, truthiness, [||]

    The values that can reach the source: primitives, functions (the
    callbacks), and object literals whose own properties are rule-map
    entries.  A function is the default no-op, a function that returns
    whatever it is called with, or a function that throws when called
    with a size [{ height, width }] for which [throws_at height width]
    holds. *)

Inductive callback : Type :=
  | NoOp                        (* the default [() => { }] *)
  | UserFn (source : string)
  | FallibleFn (source : string) (throws_at : Z -> Z -> bool).

Inductive value : Type :=
  | VUndefined
  | VNull
  | VBoolean (b : bool)
  | VNumber (x : number)
  | VString (s : string)
  | VFunction (f : callback)
  | VObject (properties : list (string * RuleMapEntry))
with RuleMapEntry : Type :=
  | Build_RuleMapEntry (property : string) (reference : value).

Definition property (e : RuleMapEntry) : string :=
  match e with Build_RuleMapEntry p _ => p end.
Definition reference (e : RuleMapEntry) : value :=
  match e with Build_RuleMapEntry _ r => r end.

(** A rule map: the object's own properties in enumeration order. *)
Definition RuleMap := list (string * RuleMapEntry).

Definition ToBoolean (v : value) : bool :=
  match v with
  | VUndefined | VNull => false
  | VBoolean b => b
  | VNumber x => negb (PrimFloat.is_zero x || PrimFloat.is_nan x)
  | VString s => negb (String.eqb s "")
  | VFunction _ | VObject _ => true
  end.

(** [a || b] *)
Definition or_else (a b : value) : value :=
  if ToBoolean a then a else b.

Definition ToString (v : value) : string :=
  match v with
  | VUndefined => "undefined"
  | VNull => "null"
  | VBoolean b => if b then "true" else "false"
  | VNumber x => Number_toString x
  | VString s => s
  | VFunction NoOp => "() => { }"
  | VFunction (UserFn source) => source
  | VFunction (FallibleFn source _) => source
  | VObject _ => "[object Object]"
  end.

(** [v === s] for a string literal [s], as a [switch] compares. *)
Definition strict_equals_string (v : value) (s : string) : bool :=
  match v with
  | VString t => String.eqb t s
  | _ => false
  end.

(** ** Completions: a normal result or a thrown exception *)

(** The exceptions of the language and of the document, and [Thrown]:
    whatever a callback threw. *)
Inductive error : Type := TypeError | ReferenceError | NotFoundError | Thrown.

Inductive completion (A : Type) : Type :=
  | Normal (a : A)
  | Throw (e : error).
Arguments Normal {A} a.
Arguments Throw {A} e.

Fixpoint index_keys (i : nat) (n : nat) : list string :=
  match n with
  | O => []
  | S n' => digits (Z.of_nat i) :: index_keys (S i) n'
  end.

(** [Object.keys(v)]: throws on [null] and [undefined]; the property
    names of an object; the indices of a string; nothing for the other
    primitives and for functions. *)
Definition Object_keys (v : value) : completion (list string) :=
  match v with
  | VUndefined | VNull => Throw TypeError
  | VObject m => Normal (map fst m)
  | VString s => Normal (index_keys 0 (String.length s))
  | VBoolean _ | VNumber _ | VFunction _ => Normal []
  end.

Fixpoint lookup (m : RuleMap) (key : string) : option RuleMapEntry :=
  match m with
  | [] => None
  | (k, e) :: m' => if String.eqb k key then Some e else lookup m' key
  end.

(** [const { property } = map[selector]] together with
    [map[selector].reference]: both throw when [map[selector]] is
    undefined; a character of a string has neither property. *)
Definition get_entry (map : value) (selector : string) : completion (value * value) :=
  match map with
  | VObject m =>
      match lookup m selector with
      | Some e => Normal (VString (property e), reference e)
      | None => Throw TypeError
      end
  | VString _ => Normal (VUndefined, VUndefined)
  | _ => Throw TypeError
  end.

End JS.

(* ===================================================================== *)
(** * The document *)
(* ===================================================================== *)

Module DOM.
Import JS.

(** An element: its attributes, its text-node children and, on hosts
    that expose it (old Internet Explorer), its [styleSheet.cssText]. *)
Record Element : Type := {
  tagName : string;
  attributes : list (string * string);
  childNodes : list string;
  styleSheet : option string
}.

Definition createElement (legacy : bool) (tag : string) : Element :=
  {| tagName := tag; attributes := []; childNodes := [];
     styleSheet := if legacy then Some "" else None |}.

Fixpoint set_assoc (name v : string) (l : list (string * string)) : list (string * string) :=
  match l with
  | [] => [(name, v)]
  | (n, w) :: l' =>
      if String.eqb n name then (n, v) :: l' else (n, w) :: set_assoc name v l'
  end.

Definition setAttribute (e : Element) (name v : string) : Element :=
  {| tagName := tagName e; attributes := set_assoc name v (attributes e);
     childNodes := childNodes e; styleSheet := styleSheet e |}.

Fixpoint getAttribute_in (l : list (string * string)) (name : string) : option string :=
  match l with
  | [] => None
  | (n, w) :: l' => if String.eqb n name then Some w else getAttribute_in l' name
  end.

Definition getAttribute (e : Element) (name : string) : option string :=
  getAttribute_in (attributes e) name.

(** The style text an element carries. *)
Definition cssText (e : Element) : string :=
  match styleSheet e with
  | Some t => t
  | None => String.concat "" (childNodes e)
  end.

Definition has_id (id : string) (e : Element) : bool :=
  match getAttribute e "id" with
  | Some v => String.eqb v id
  | None => false
  end.

(** The document: the children of the head container
    ([document.head || getElementsByTagName('head')[0] ||
    documentElement]), which are leaves, and the elements that follow it
    in document order. *)
Record Document : Type := {
  head : list Element;
  body : list Element
}.

(** A reference to a node of the document. *)
Inductive node : Type :=
  | HeadChild (i : nat)
  | Elsewhere (i : nat).

Fixpoint find_index {A : Type} (f : A -> bool) (l : list A) : option nat :=
  match l with
  | [] => None
  | a :: l' => if f a then Some O else option_map S (find_index f l')
  end.

(** [document.getElementById(id)]: the first element in document order
    whose [id] is [id]; [null] for the empty string. *)
Definition getElementById (d : Document) (id : string) : option node :=
  if String.eqb id "" then None
  else
    match find_index (has_id id) (head d) with
    | Some i => Some (HeadChild i)
    | None => option_map Elsewhere (find_index (has_id id) (body d))
    end.

Fixpoint remove_nth {A : Type} (i : nat) (l : list A) : list A :=
  match l, i with
  | [], _ => []
  | _ :: l', O => l'
  | a :: l', S i' => a :: remove_nth i' l'
  end.

(** [head.removeChild(n)]: throws NotFoundError unless [n] is a child of
    the head. *)
Definition removeChild (d : Document) (n : node) : completion Document :=
  match n with
  | HeadChild i => Normal {| head := remove_nth i (head d); body := body d |}
  | Elsewhere _ => Throw NotFoundError
  end.

(** [head.appendChild(e)] for a new element [e]. *)
Definition appendChild (d : Document) (e : Element) : Document :=
  {| head := (head d ++ [e])%list; body := body d |}.

End DOM.

(* ===================================================================== *)
(** * The program: [src/index.js] *)
(* ===================================================================== *)

Module VUnit.
Import JS DOM.

(** ** State *)

(** [{ height, width }]: the client box of the root element, two DOM
    [long]s. *)
Record ViewportSize : Type := {
  height : Z;
  width : Z
}.

(** An object with the four option properties; an absent property reads
    as [undefined]. *)
Record Options : Type := {
  stylesheetId : value;
  viewportObserverInterval : value;
  CSSMap : value;
  onResize : value
}.

(** The instance, [vunit = this]. *)
Record Instance : Type := {
  options : Options;
  viewportSize : ViewportSize
}.

(** A global identifier of the host: not declared at all, or bound. *)
Inductive global : Type :=
  | Undeclared
  | Bound (v : value).

(** What the host provides and records: the globals [window] and
    [document], the document tree, the current client box of the root
    element, whether style elements expose [styleSheet], the delays of the
    timers armed with [setInterval], and the calls made to callbacks. *)
Record Host : Type := {
  window : global;
  document : global;
  dom : Document;
  clientHeight : Z;
  clientWidth : Z;
  legacy : bool;
  intervals : list value;
  calls : list (callback * ViewportSize)
}.

Record World : Type := {
  vunit : Instance;
  host : Host
}.

(** ** Computations over the world that may throw *)

Definition M (A : Type) : Type := World -> completion A * World.

Definition ret {A : Type} (a : A) : M A := fun w => (Normal a, w).

Definition bind {A B : Type} (c : M A) (k : A -> M B) : M B :=
  fun w =>
    match c w with
    | (Normal a, w') => k a w'
    | (Throw e, w') => (Throw e, w')
    end.

Definition lift {A : Type} (c : completion A) : M A := fun w => (c, w).

Definition get : M World := fun w => (Normal w, w).

Definition put (w : World) : M unit := fun _ => (Normal tt, w).

Declare Scope js_scope.
Delimit Scope js_scope with js.
Notation "x <- c ;; k" := (bind c (fun x => k))
  (at level 100, c at next level, right associativity) : js_scope.
Notation "c ;; k" := (bind c (fun _ => k))
  (at level 100, right associativity) : js_scope.
Local Open Scope js_scope.

(** Updates of one field. *)
Definition with_dom (d : Document) (h : Host) : Host :=
  {| window := window h; document := document h; dom := d;
     clientHeight := clientHeight h; clientWidth := clientWidth h;
     legacy := legacy h; intervals := intervals h; calls := calls h |}.

Definition with_call (cb : callback) (arg : ViewportSize) (h : Host) : Host :=
  {| window := window h; document := document h; dom := dom h;
     clientHeight := clientHeight h; clientWidth := clientWidth h;
     legacy := legacy h; intervals := intervals h;
     calls := (calls h ++ [(cb, arg)])%list |}.

Definition with_client (vs : ViewportSize) (h : Host) : Host :=
  {| window := window h; document := document h; dom := dom h;
     clientHeight := height vs; clientWidth := width vs;
     legacy := legacy h; intervals := intervals h; calls := calls h |}.

Definition with_interval (delay : value) (h : Host) : Host :=
  {| window := window h; document := document h; dom := dom h;
     clientHeight := clientHeight h; clientWidth := clientWidth h;
     legacy := legacy h; intervals := (intervals h ++ [delay])%list;
     calls := calls h |}.

Definition set_viewportSize (vs : ViewportSize) : M unit :=
  w <- get ;;
  put {| vunit := {| options := options (vunit w); viewportSize := vs |};
         host := host w |}.

Definition set_dom (d : Document) : M unit :=
  w <- get ;;
  put {| vunit := vunit w; host := with_dom d (host w) |}.

(** The callback [cb] throws when called with [arg]. *)
Definition throws (cb : callback) (arg : ViewportSize) : bool :=
  match cb with
  | FallibleFn _ throws_at => throws_at (height arg) (width arg)
  | NoOp | UserFn _ => false
  end.

(** Calling [f(arg)]: anything that is not a function throws a
    TypeError; a function is entered, which the host records, and then
    returns or throws. *)
Definition call (f : value) (arg : ViewportSize) : M unit :=
  match f with
  | VFunction cb =>
      w <- get ;;
      put {| vunit := vunit w; host := with_call cb arg (host w) |} ;;
      if throws cb arg then lift (Throw Thrown) else ret tt
  | _ => lift (Throw TypeError)
  end.

(** ** The functions of the source *)

(** [createStylesheet] (lines 49-58) *)
Definition createStylesheet : M Element :=
  w <- get ;;
  let stylesheet := createElement (legacy (host w)) "style" in
  let stylesheet := setAttribute stylesheet "rel" "stylesheet" in
  let stylesheet := setAttribute stylesheet "type" "text/css" in
  let stylesheet := setAttribute stylesheet "media" "screen" in
  let stylesheet :=
    setAttribute stylesheet "id" (ToString (stylesheetId (options (vunit w)))) in
  ret stylesheet.

Definition newline : string := String (ascii_of_nat 10) "".

(** Line 119 *)
Definition CSSRuleTemplate : string :=
  "_SELECTOR__RANGE_{_PROPERTY_:_VALUE_px}" ++ newline.

(** Lines 121-124: the four replacements, each argument converted to a
    string. *)
Definition fill_template (selector : string) (range : number)
    (property : value) (value : number) : string :=
  String_replace
    (String_replace
       (String_replace
          (String_replace CSSRuleTemplate "_SELECTOR_" selector)
          "_RANGE_" (Number_toString range))
       "_PROPERTY_" (ToString property))
    "_VALUE_" (Number_toString value).

(** Lines 100-116: the [switch] on the reference. *)
Definition switch_reference (reference : value)
    (computedWidth computedHeight vmin vmax range : number) : number :=
  if strict_equals_string reference "vw" then (computedWidth * range)%float
  else if strict_equals_string reference "vh" then (computedHeight * range)%float
  else if strict_equals_string reference "vmin" then (vmin * range)%float
  else if strict_equals_string reference "vmax" then (vmax * range)%float
  else Z_to_number 0.

(** [for (let range = 1; range <= 100; range += 1)] *)
Definition ranges : list number :=
  map (fun range => Z_to_number (Z.of_nat range)) (seq 1 100).

(** [array.forEach(body)] over a state, stopping at the first throw. *)
Fixpoint forEach {A S : Type} (l : list A) (body : A -> S -> completion S)
    (s : S) : completion S :=
  match l with
  | [] => Normal s
  | a :: l' =>
      match body a s with
      | Normal s' => forEach l' body s'
      | Throw e => Throw e
      end
  end.

(** [createCSSRules] (lines 84-129); the loops carry the two mutable
    locals [CSSRules] and [value]. *)
Definition createCSSRules : M string :=
  w <- get ;;
  let computedHeight := (Z_to_number (height (viewportSize (vunit w))) / 100)%float in
  let computedWidth := (Z_to_number (width (viewportSize (vunit w))) / 100)%float in
  let vmin := Math_min computedWidth computedHeight in
  let vmax := Math_max computedWidth computedHeight in
  let map := CSSMap (options (vunit w)) in
  keys <- lift (Object_keys map) ;;
  locals <- lift
    (forEach keys
       (fun selector '(CSSRules, value) =>
          match get_entry map selector with
          | Throw e => Throw e
          | Normal (property, reference) =>
              Normal
                (fold_left
                   (fun '(CSSRules, _) range =>
                      let value :=
                        switch_reference reference computedWidth computedHeight
                          vmin vmax range in
                      (CSSRules ++ fill_template selector range property value,
                       value))
                   ranges (CSSRules, value))
          end)
       ("", Z_to_number 0)) ;;
  ret (fst locals).

(** [appendCSSRulesToStylesheet] (lines 138-146); the element is mutated
    in place, so the updated element is handed back. *)
Definition appendCSSRulesToStylesheet (CSSRules : string) (stylesheet : Element)
    : M Element :=
  match styleSheet stylesheet with
  | Some _ =>
      ret {| tagName := tagName stylesheet; attributes := attributes stylesheet;
             childNodes := childNodes stylesheet; styleSheet := Some CSSRules |}
  | None =>
      ret {| tagName := tagName stylesheet; attributes := attributes stylesheet;
             childNodes := (childNodes stylesheet ++ [CSSRules])%list;
             styleSheet := None |}
  end.

(** [appendStylesheetOnHead] (lines 154-169) *)
Definition appendStylesheetOnHead (stylesheet : Element) : M unit :=
  w <- get ;;
  let legacyStylesheet :=
    getElementById (dom (host w)) (ToString (stylesheetId (options (vunit w)))) in
  d <- match legacyStylesheet with
       | Some n => lift (removeChild (dom (host w)) n)
       | None => ret (dom (host w))
       end ;;
  set_dom (appendChild d stylesheet).

(** [calculateViewportSize] (lines 183-190) *)
Definition calculateViewportSize : M ViewportSize :=
  w <- get ;;
  ret {| height := clientHeight (host w); width := clientWidth (host w) |}.

(** [viewportHasChanged] (lines 201-210) *)
Definition viewportHasChanged : M bool :=
  currentViewportSize <- calculateViewportSize ;;
  w <- get ;;
  let differentHeight :=
    negb (height currentViewportSize =? height (viewportSize (vunit w))) in
  let differentWidth :=
    negb (width currentViewportSize =? width (viewportSize (vunit w))) in
  set_viewportSize currentViewportSize ;;
  ret (differentHeight || differentWidth).

(** [viewportObserver] (lines 212-221) *)
Definition viewportObserver : M unit :=
  changed <- viewportHasChanged ;;
  if changed then
    stylesheet <- createStylesheet ;;
    CSSRules <- createCSSRules ;;
    stylesheet <- appendCSSRulesToStylesheet CSSRules stylesheet ;;
    appendStylesheetOnHead stylesheet ;;
    w <- get ;;
    call (onResize (options (vunit w))) (viewportSize (vunit w))
  else ret tt.

(** The empty object [{}]. *)
Definition empty_object : Options :=
  {| stylesheetId := VUndefined; viewportObserverInterval := VUndefined;
     CSSMap := VUndefined; onResize := VUndefined |}.

(** Lines 21-35: [opts = options || {}] and the defaults. *)
Definition resolve_options (argument : option Options) : Options :=
  let opts := match argument with Some o => o | None => empty_object end in
  {| stylesheetId := or_else (stylesheetId opts) (VString "v-unit-stylesheet");
     viewportObserverInterval :=
       or_else (viewportObserverInterval opts) (VNumber (Z_to_number 100));
     CSSMap := or_else (CSSMap opts) VNull;
     onResize := or_else (onResize opts) (VFunction NoOp) |}.

(** Lines 23-41: the instance as the constructor leaves it before the
    first check. *)
Definition initial (argument : option Options) : Instance :=
  {| options := resolve_options argument;
     viewportSize := {| height := 0; width := 0 |} |}.

(** Lines 225-228: [window.setInterval(..., interval)]. *)
Definition setInterval (delay : value) (h : Host) : Host :=
  with_interval delay h.

(** What a call of [vUnit] leaves behind: how it completed, the
    properties it set on [this] (none if it returned at the guard), and
    the host. *)
Record Outcome : Type := {
  completed : completion value;
  this : option Instance;
  after : Host
}.

(** [vUnit(options)] (lines 12-229).  [argument] is [None] for a missing
    or falsy argument. *)
Definition vUnit (argument : option Options) (h : Host) : Outcome :=
  match window h with
  | Undeclared => {| completed := Throw ReferenceError; this := None; after := h |}
  | Bound win =>
      if negb (ToBoolean win) then
        {| completed := Normal VUndefined; this := None; after := h |}
      else
        match document h with
        | Undeclared =>
            {| completed := Throw ReferenceError; this := None; after := h |}
        | Bound doc =>
            if negb (ToBoolean doc) then
              {| completed := Normal VUndefined; this := None; after := h |}
            else
              match viewportObserver {| vunit := initial argument; host := h |} with
              | (Throw e, w) =>
                  {| completed := Throw e; this := Some (vunit w); after := host w |}
              | (Normal _, w) =>
                  {| completed := Normal VUndefined;
                     this := Some (vunit w);
                     after :=
                       setInterval (viewportObserverInterval (options (vunit w)))
                         (host w) |}
              end
        end
  end.

(** ** The host between two checks *)

(** The root element is laid out anew. *)
Definition resize (vs : ViewportSize) (w : World) : World :=
  {| vunit := vunit w; host := with_client vs (host w) |}.

(** One check-and-publish cycle with the viewport at [vs]: what the
    animation-frame callback of a timer tick runs. *)
Definition cycle (vs : ViewportSize) (w : World) : completion unit * World :=
  viewportObserver (resize vs w).

(** Successive cycles, one per sample; an exception in a cycle is the
    host's to report and the timer stays armed. *)
Fixpoint cycles (samples : list ViewportSize) (w : World) : World :=
  match samples with
  | [] => w
  | vs :: rest => cycles rest (snd (cycle vs w))
  end.

End VUnit.

Import JS DOM VUnit.
Local Open Scope js_scope.


(* ===================================================================== *)
(** * Rule generation *)
(* ===================================================================== *)

(** ** What the generator is expected to produce *)

(** The unit of a reference axis, as the specification words it: a
    hundredth of the width for [vw], of the height for [vh], the smaller
    of the two for [vmin], the larger for [vmax], and 0 otherwise. *)
Definition axisUnit (viewport : ViewportSize) (reference : value) : number :=
  let unitWidth := (Z_to_number (width viewport) / 100)%float in
  let unitHeight := (Z_to_number (height viewport) / 100)%float in
  if strict_equals_string reference "vw" then unitWidth
  else if strict_equals_string reference "vh" then unitHeight
  else if strict_equals_string reference "vmin" then Math_min unitWidth unitHeight
  else if strict_equals_string reference "vmax" then Math_max unitWidth unitHeight
  else Z_to_number 0.

(** The hundred rules of one selector, ranges 1 to 100, each with the
    value [axisUnit * range]. *)
Definition rules_of_selector (viewport : ViewportSize) (selector : string)
    (e : RuleMapEntry) : list string :=
  map (fun range =>
         fill_template selector range (VString (property e))
           (axisUnit viewport (reference e) * range)%float)
      ranges.

(** All rules of a rule map, selector by selector. *)
Definition rules (viewport : ViewportSize) (m : RuleMap) : list string :=
  flat_map (fun selector =>
              match lookup m selector with
              | Some e => rules_of_selector viewport selector e
              | None => []
              end)
           (map fst m).

Definition join (l : list string) : string := fold_right append "" l.

(** The lines of a text, each ended by a line feed. *)
Fixpoint lines_from (current text : string) : list string :=
  match text with
  | "" => if String.eqb current "" then [] else [current]
  | String c text' =>
      if Ascii.eqb c (ascii_of_nat 10) then current :: lines_from "" text'
      else lines_from (current ++ String c "") text'
  end.

Definition lines (text : string) : list string := lines_from "" text.

(** ** The text of a rule

    The output grammar of the specification: the selector, the range, and
    the declaration in braces. *)
Definition written_rule (selector : string) (range : number) (property : string)
    (value : number) : string :=
  selector ++ Number_toString range ++ "{" ++ property ++ ":"
  ++ Number_toString value ++ "px}".

Definition written_rules (viewport : ViewportSize) (m : RuleMap) : list string :=
  flat_map (fun selector =>
              match lookup m selector with
              | Some e =>
                  map (fun range =>
                         written_rule selector range (property e)
                           (axisUnit viewport (reference e) * range)%float)
                      ranges
              | None => []
              end)
           (map fst m).

(** A string without [$], [_] and line feed: the replacements of the
    template leave it alone, and it stays on its line. *)
Definition plain_char (c : ascii) : bool :=
  negb (Ascii.eqb c "$" || Ascii.eqb c "_" || Ascii.eqb c (ascii_of_nat 10)).

Fixpoint plain (s : string) : bool :=
  match s with
  | "" => true
  | String c s' => plain_char c && plain s'
  end.

Definition plain_map (m : RuleMap) : bool :=
  forallb (fun entry => plain (fst entry) && plain (property (snd entry))) m.

(** The character [c] does not occur in [s]. *)
Fixpoint without (c : ascii) (s : string) : bool :=
  match s with
  | "" => true
  | String d s' => negb (Ascii.eqb d c) && without c s'
  end.

(** The string [pat] occurs in [s]. *)
Definition occurs (pat s : string) : bool :=
  match split_first pat s with
  | Some _ => true
  | None => false
  end.

(** A replacement text that is inserted as it is: none of its [$] is
    followed by [$], [&], a backquote or a quote. *)
Fixpoint literal (template : string) : bool :=
  match template with
  | "" => true
  | String c rest =>
      (if Ascii.eqb c "$" then
         match rest with
         | "" => true
         | String d _ =>
             negb (Ascii.eqb d "$" || Ascii.eqb d "&" || Ascii.eqb d "`"
                   || Ascii.eqb d "'")
         end
       else true)
      && literal rest
  end.

(** A selector that the replacements insert as it is and then step
    over.  It is literal as a replacement text.  It holds none of the
    placeholders a later replacement looks for: no [_PROPERTY_], no
    [_VALUE_], and no [_RANGE_], not even one that its last characters
    would form with the [_RANGE_] that follows it in the template.  Other
    underscores and dollar signs are welcome. *)
Definition regular_selector (selector : string) : bool :=
  literal selector
  && negb (occurs "_RANGE_" (selector ++ "_RANGE"))
  && negb (occurs "_PROPERTY_" selector)
  && negb (occurs "_VALUE_" selector).

(** A property likewise: literal, and without [_VALUE_], the one
    placeholder replaced after the property is in place. *)
Definition regular_property (property : string) : bool :=
  literal property && negb (occurs "_VALUE_" property).

(** A string that stays on its line. *)
Definition single_line (s : string) : bool := without (ascii_of_nat 10) s.


(** The generator as a function of a viewport size and a rule map only:
    [createCSSRules] run on an instance that holds nothing else. *)
Definition bare_host : Host :=
  {| window := Bound (VObject []); document := Bound (VObject []);
     dom := {| head := []; body := [] |};
     clientHeight := 0; clientWidth := 0; legacy := false;
     intervals := []; calls := [] |}.

Definition generate (viewport : ViewportSize) (map : value) : completion string :=
  fst (createCSSRules
         {| vunit := {| options := {| stylesheetId := VUndefined;
                                      viewportObserverInterval := VUndefined;
                                      CSSMap := map;
                                      onResize := VUndefined |};
                        viewportSize := viewport |};
            host := bare_host |}).

(** ** The change check *)

(** What the check compares: the sampled client box against the stored
    viewport size. *)
Definition differs (w : World) : bool :=
  negb (clientHeight (host w) =? height (viewportSize (vunit w)))
  || negb (clientWidth (host w) =? width (viewportSize (vunit w))).

(** The world once the sample is stored. *)
Definition sampled (w : World) : World :=
  {| vunit := {| options := options (vunit w);
                 viewportSize := {| height := clientHeight (host w);
                                    width := clientWidth (host w) |} |};
     host := host w |}.

(** ** Publication *)

(** The configured identifier, as the document receives it. *)
Definition configured_id (w : World) : string :=
  ToString (stylesheetId (options (vunit w))).

Definition stylesheet_attributes (id : string) : list (string * string) :=
  [("rel", "stylesheet"); ("type", "text/css"); ("media", "screen"); ("id", id)].

(** The style element the cycle builds for the text [CSSRules]:
    [createStylesheet] followed by [appendCSSRulesToStylesheet]. *)
Definition new_stylesheet (w : World) (CSSRules : string) : Element :=
  {| tagName := "style";
     attributes := stylesheet_attributes (configured_id w);
     childNodes := if legacy (host w) then [] else [CSSRules];
     styleSheet := if legacy (host w) then Some CSSRules else None |}.

(** Remove-then-append on the document, as [appendStylesheetOnHead]
    does it. *)
Definition publish (d : Document) (id : string) (e : Element) : completion Document :=
  match getElementById d id with
  | Some n =>
      match removeChild d n with
      | Normal d' => Normal (appendChild d' e)
      | Throw err => Throw err
      end
  | None => Normal (appendChild d e)
  end.

(** The elements of the document whose [id] is [id]. *)
Definition bearing (id : string) (d : Document) : list Element :=
  filter (has_id id) (head d ++ body d).

(** ** Cycles *)

(** The ways a check-and-publish cycle can end: nothing changed; rule
    generation threw; publication threw; [onResize] is not a function;
    [onResize] was called and returned; [onResize] was called and
    threw. *)
Inductive cycle_outcome (w : World) : completion unit -> World -> Prop :=
  | Unchanged :
      differs w = false ->
      cycle_outcome w (Normal tt) (sampled w)
  | GenerationThrew (e : error) :
      differs w = true ->
      generate (viewportSize (vunit (sampled w))) (CSSMap (options (vunit w)))
      = Throw e ->
      cycle_outcome w (Throw e) (sampled w)
  | PublishThrew (CSSRules : string) (e : error) :
      differs w = true ->
      generate (viewportSize (vunit (sampled w))) (CSSMap (options (vunit w)))
      = Normal CSSRules ->
      publish (dom (host w)) (configured_id w) (new_stylesheet w CSSRules)
      = Throw e ->
      cycle_outcome w (Throw e) (sampled w)
  | CallbackThrew (CSSRules : string) (d : Document) :
      differs w = true ->
      generate (viewportSize (vunit (sampled w))) (CSSMap (options (vunit w)))
      = Normal CSSRules ->
      publish (dom (host w)) (configured_id w) (new_stylesheet w CSSRules)
      = Normal d ->
      (forall cb, onResize (options (vunit w)) <> VFunction cb) ->
      cycle_outcome w (Throw TypeError)
        {| vunit := vunit (sampled w); host := with_dom d (host w) |}
  | Published (CSSRules : string) (d : Document) (cb : callback) :
      differs w = true ->
      generate (viewportSize (vunit (sampled w))) (CSSMap (options (vunit w)))
      = Normal CSSRules ->
      publish (dom (host w)) (configured_id w) (new_stylesheet w CSSRules)
      = Normal d ->
      onResize (options (vunit w)) = VFunction cb ->
      throws cb (viewportSize (vunit (sampled w))) = false ->
      cycle_outcome w (Normal tt)
        {| vunit := vunit (sampled w);
           host := with_call cb (viewportSize (vunit (sampled w)))
                     (with_dom d (host w)) |}
  | CallbackRaised (CSSRules : string) (d : Document) (cb : callback) :
      differs w = true ->
      generate (viewportSize (vunit (sampled w))) (CSSMap (options (vunit w)))
      = Normal CSSRules ->
      publish (dom (host w)) (configured_id w) (new_stylesheet w CSSRules)
      = Normal d ->
      onResize (options (vunit w)) = VFunction cb ->
      throws cb (viewportSize (vunit (sampled w))) = true ->
      cycle_outcome w (Throw Thrown)
        {| vunit := vunit (sampled w);
           host := with_call cb (viewportSize (vunit (sampled w)))
                     (with_dom d (host w)) |}.

(** Both globals are bound to truthy values. *)
Definition available (h : Host) : bool :=
  match window h, document h with
  | Bound win, Bound doc => ToBoolean win && ToBoolean doc
  | _, _ => false
  end.

(** One change check with the viewport at [sample]. *)
Definition check (sample : ViewportSize) (w : World) : completion bool * World :=
  viewportHasChanged (resize sample w).

(** The instance right after construction, on the host [h]. *)
Definition fresh (argument : option Options) (h : Host) : World :=
  {| vunit := initial argument; host := h |}.

(** Successive cycles each of which detected a change and completed. *)
Fixpoint detected (samples : list ViewportSize) (w : World) : Prop :=
  match samples with
  | [] => True
  | sample :: rest =>
      fst (check sample w) = Normal true
      /\ fst (cycle sample w) = Normal tt
      /\ detected rest (snd (cycle sample w))
  end.

(** ** Sample inputs *)

(** A browser: both globals are objects, the document is [d], the root
    element measures [viewport]. *)
Definition browser (d : Document) (viewport : ViewportSize) : Host :=
  {| window := Bound (VObject []); document := Bound (VObject []);
     dom := d;
     clientHeight := height viewport; clientWidth := width viewport;
     legacy := false; intervals := []; calls := [] |}.

Definition empty_document : Document := {| head := []; body := [] |}.

(** [{ CSSMap: map }] *)
Definition only_CSSMap (map : value) : Options :=
  {| stylesheetId := VUndefined; viewportObserverInterval := VUndefined;
     CSSMap := map; onResize := VUndefined |}.

(** An instance whose stored viewport is [viewport], configured with
    [argument], in a browser with an empty document. *)
Definition sample_world (argument : option Options) (viewport : ViewportSize) : World :=
  {| vunit := {| options := resolve_options argument; viewportSize := viewport |};
     host := browser empty_document viewport |}.

Definition viewport_1000_500 : ViewportSize := {| height := 500; width := 1000 |}.
Definition viewport_800_400 : ViewportSize := {| height := 400; width := 800 |}.

(** [{".vw50": {property: "width", reference: "vw"}}] *)
Definition map_vw50 : RuleMap :=
  [(".vw50", Build_RuleMapEntry "width" (VString "vw"))].

(** [{".vw": {property: "width", reference: "vw"}}] *)
Definition map_vw : RuleMap :=
  [(".vw", Build_RuleMapEntry "width" (VString "vw"))].

(** [{".min": {property: "font-size", reference: "vmin"},
      ".max": {property: "font-size", reference: "vmax"}}] *)
Definition map_min_max : RuleMap :=
  [(".min", Build_RuleMapEntry "font-size" (VString "vmin"));
   (".max", Build_RuleMapEntry "font-size" (VString "vmax"))].

Definition viewport_0_0 : ViewportSize := {| height := 0; width := 0 |}.

(** A host in which [document] is bound to [undefined]. *)
Definition host_without_document : Host :=
  {| window := Bound (VObject []); document := Bound VUndefined;
     dom := empty_document; clientHeight := 0; clientWidth := 0;
     legacy := false; intervals := []; calls := [] |}.

(** Two resizes seen by an instance configured with [map_vw]. *)
Definition two_resizes : list ViewportSize := [viewport_1000_500; viewport_800_400].

(** [{ onResize: report }] for a function [report]. *)
Definition only_onResize : Options :=
  {| stylesheetId := VUndefined; viewportObserverInterval := VUndefined;
     CSSMap := VUndefined; onResize := VFunction (UserFn "report") |}.

(** [{ CSSMap: map_vw, onResize: report }] *)
Definition map_and_onResize : Options :=
  {| stylesheetId := VUndefined; viewportObserverInterval := VUndefined;
     CSSMap := VObject map_vw; onResize := VFunction (UserFn "report") |}.

(** [{ stylesheetId: "", viewportObserverInterval: 0, CSSMap: false,
      onResize: null }] *)
Definition falsy_options : Options :=
  {| stylesheetId := VString ""; viewportObserverInterval := VNumber 0%float;
     CSSMap := VBoolean false; onResize := VNull |}.

(** ** Further vocabulary *)

(** [createStylesheet] followed by [appendCSSRulesToStylesheet], as the
    cycle chains them (lines 214-217). *)
Definition build_stylesheet (CSSRules : string) : M Element :=
  stylesheet <- createStylesheet ;;
  appendCSSRulesToStylesheet CSSRules stylesheet.

(** The elements of a list that do not bear [id]. *)
Definition others (id : string) (l : list Element) : list Element :=
  filter (fun e => negb (has_id id e)) l.

(** One of the four reference axes of the [switch]. *)
Definition recognized (reference : value) : bool :=
  strict_equals_string reference "vw"
  || strict_equals_string reference "vh"
  || strict_equals_string reference "vmin"
  || strict_equals_string reference "vmax".

(** Every entry of the map refers to the axis [axis]. *)
Definition only_axis (axis : string) (m : RuleMap) : bool :=
  forallb (fun entry => strict_equals_string (reference (snd entry)) axis) m.

(** The rule number [j] (from 0) is for the range [j + 1]. *)
Definition range_at (j : nat) : number := Z_to_number (Z.of_nat (S j)).

(** A configuration with which the program itself cannot throw on a
    document that keeps the identifier out of the body: a rule map, a
    function as [onResize], an identifier that is not empty. *)
Definition well_configured (w : World) : Prop :=
  (exists m, CSSMap (options (vunit w)) = VObject m)
  /\ (exists cb, onResize (options (vunit w)) = VFunction cb)
  /\ configured_id w <> "".

(** [onResize] is a function that returns, whatever the viewport size it
    is called with. *)
Definition onResize_returns (w : World) : Prop :=
  exists cb,
    onResize (options (vunit w)) = VFunction cb
    /\ forall size, throws cb size = false.

(** The one element bearing the identifier is a child of the head and
    holds the rules generated for the stored viewport size. *)
Definition in_sync (w : World) : Prop :=
  filter (has_id (configured_id w)) (body (dom (host w))) = []
  /\ exists text,
       generate (viewportSize (vunit w)) (CSSMap (options (vunit w))) = Normal text
       /\ filter (has_id (configured_id w)) (head (dom (host w)))
          = [new_stylesheet w text].

(** ** Further sample inputs *)

Definition element_with_id (tag id : string) : Element :=
  {| tagName := tag; attributes := [("id", id)]; childNodes := [];
     styleSheet := None |}.

(** A page that already uses the default identifier on a [div] of its
    body. *)
Definition document_with_body_node : Document :=
  {| head := []; body := [element_with_id "div" "v-unit-stylesheet"] |}.

(** A page with other nodes around an earlier stylesheet. *)
Definition document_with_neighbours : Document :=
  {| head := [element_with_id "meta" "m";
              element_with_id "style" "v-unit-stylesheet";
              element_with_id "title" "t"];
     body := [element_with_id "div" "d"] |}.

(** A style element that already holds a text node. *)
Definition style_with_text : Element :=
  {| tagName := "style"; attributes := []; childNodes := [".a{}"];
     styleSheet := None |}.

(** [{ CSSMap: map_vw, onResize: 5 }] *)
Definition map_and_bad_onResize : Options :=
  {| stylesheetId := VUndefined; viewportObserverInterval := VUndefined;
     CSSMap := VObject map_vw; onResize := VNumber 5%float |}.

(** [{".x": {property: "width", reference: "VW"},
      ".y": {property: "height"}}]: a misspelt and a missing reference. *)
Definition map_unrecognized : RuleMap :=
  [(".x", Build_RuleMapEntry "width" (VString "VW"));
   (".y", Build_RuleMapEntry "height" VUndefined)].

Definition viewport_1000_900 : ViewportSize := {| height := 900; width := 1000 |}.

(** A page whose head already holds two elements with the default
    identifier. *)
Definition document_with_two_bearers : Document :=
  {| head := [element_with_id "style" "v-unit-stylesheet";
              element_with_id "link" "v-unit-stylesheet"];
     body := [] |}.



(** [{ CSSMap: map_vw, onResize: narrow }] for a function [narrow] that
    throws when the viewport is less than 900 wide. *)
Definition narrow : callback := FallibleFn "narrow" (fun _ width => width <? 900).

Definition map_and_throwing_onResize : Options :=
  {| stylesheetId := VUndefined; viewportObserverInterval := VUndefined;
     CSSMap := VObject map_vw; onResize := VFunction narrow |}.

(* ===================================================================== *)
(** * The language fragment on known values *)
(* ===================================================================== *)

(** Number-to-String on values whose JavaScript rendering is well known. *)
Example Number_toString_integers :
  map (fun z => Number_toString (Z_to_number z)) [0; 1; 50; 100; 500; -7; 2 ^ 53]
  = ["0"; "1"; "50"; "100"; "500"; "-7"; "9007199254740992"].
Proof. vm_compute. reflexivity. Qed.

Example Number_toString_fractions :
  map Number_toString
    [(1 / 10 + 2 / 10)%float; (7 / 100 * 3)%float; (435 / 100 * 100)%float;
     (1 / 3)%float; (2 / 3)%float; (100 / 3)%float; (3 / 2)%float;
     (- (5 / 2))%float; (777 / 100 * 5)%float]
  = ["0.30000000000000004"; "0.21000000000000002"; "434.99999999999994";
     "0.3333333333333333"; "0.6666666666666666"; "33.333333333333336"; "1.5";
     "-2.5"; "38.849999999999994"].
Proof. vm_compute. reflexivity. Qed.

Example Number_toString_exponents :
  map Number_toString
    [(Z_to_number (10 ^ 10) * Z_to_number (10 ^ 11))%float;
     (Z_to_number (10 ^ 10) * Z_to_number (10 ^ 10))%float;
     (1 / Z_to_number (10 ^ 6))%float;
     (1 / Z_to_number (10 ^ 7))%float;
     (15 / Z_to_number (10 ^ 7))%float;
     0x1p-1074%float;
     0x1.fffffffffffffp1023%float]
  = ["1e+21"; "100000000000000000000"; "0.000001"; "1e-7"; "0.0000015";
     "5e-324"; "1.7976931348623157e+308"].
Proof. vm_compute. reflexivity. Qed.

Example Number_toString_special :
  map Number_toString
    [(0 / 0)%float; (1 / 0)%float; (-1 / 0)%float; (- 0)%float]
  = ["NaN"; "Infinity"; "-Infinity"; "0"].
Proof. vm_compute. reflexivity. Qed.

Example Math_min_max_samples :
  map Number_toString
    [Math_min 8 4; Math_max 8 4; Math_min 4 4; Math_min (0 / 0) 4;
     Math_max 4 (0 / 0)]%float
  = ["4"; "8"; "4"; "NaN"; "NaN"]
  /\ is_neg_zero (Math_min 0 (- 0))%float = true
  /\ is_pos_zero (Math_max (- 0) 0)%float = true.
Proof. vm_compute. repeat split. Qed.

(** [replace] touches the first occurrence only and expands the dollar
    patterns of the replacement. *)
Example String_replace_samples :
  String_replace "a-b-c" "-" "+" = "a+b-c"
  /\ String_replace "abc" "x" "y" = "abc"
  /\ String_replace "abc" "b" "[$&$&]" = "a[bb]c"
  /\ String_replace "abc" "b" "$$" = "a$c"
  /\ String_replace "abc" "b" "$`" = "aac"
  /\ String_replace "abc" "b" "$'" = "acc"
  /\ String_replace "abc" "b" "$1$" = "a$1$c".
Proof. repeat split. Qed.

Example ToBoolean_samples :
  map ToBoolean
    [VUndefined; VNull; VBoolean false; VNumber 0%float; VNumber (- 0)%float;
     VNumber (0 / 0)%float; VString ""; VBoolean true; VNumber 100%float;
     VString "0"; VFunction NoOp; VObject []]
  = [false; false; false; false; false; false; false; true; true; true;
     true; true].
Proof. vm_compute. reflexivity. Qed.

(** ** Strings and lists *)

Lemma append_assoc (a b c : string) : (a ++ b) ++ c = a ++ (b ++ c).
Proof. induction a as [|x a IH]; simpl; [reflexivity | now rewrite IH]. Qed.

Lemma append_empty_r (a : string) : a ++ "" = a.
Proof. induction a as [|x a IH]; simpl; [reflexivity | now rewrite IH]. Qed.

Lemma join_app (l1 l2 : list string) : join (l1 ++ l2) = join l1 ++ join l2.
Proof.
  induction l1 as [|a l1 IH]; simpl; [reflexivity|].
  now rewrite IH, append_assoc.
Qed.

Lemma lookup_key (m : RuleMap) (selector : string) :
  In selector (map fst m) -> exists e, lookup m selector = Some e.
Proof.
  induction m as [|[k e] m IH]; simpl; [intros []|].
  intros [<- | Hin].
  - rewrite String.eqb_refl. now exists e.
  - destruct (String.eqb k selector); [now exists e | now apply IH].
Qed.

Lemma lookup_In (m : RuleMap) (selector : string) (e : RuleMapEntry) :
  lookup m selector = Some e -> In (selector, e) m.
Proof.
  induction m as [|[k e'] m IH]; cbn; [discriminate|].
  destruct (String.eqb_spec k selector) as [->|_].
  - intros [= ->]. now left.
  - intros H. right. now apply IH.
Qed.

(** ** The loops *)

(** The inner loop appends one rule per range to [CSSRules]. *)
Lemma inner_loop (f : number -> string) (g : number -> number) :
  forall (l : list number) (CSSRules : string) (value : number),
    fst (fold_left (fun '(CSSRules, _) range => (CSSRules ++ f range, g range))
           l (CSSRules, value))
    = CSSRules ++ join (map f l).
Proof.
  induction l as [|range l IH]; intros CSSRules value; simpl.
  - now rewrite append_empty_r.
  - now rewrite IH, append_assoc.
Qed.

(** [0 * range] is [0] for each of the hundred ranges. *)
Lemma zero_times_range :
  Forall (fun range => (Z_to_number 0 * range)%float = Z_to_number 0) ranges.
Proof. vm_compute. repeat constructor. Qed.

(** The [switch] computes [axisUnit * range]. *)
Lemma switch_reference_axisUnit (viewport : ViewportSize) (reference : value)
    (range : number) :
  In range ranges ->
  let computedHeight := (Z_to_number (height viewport) / 100)%float in
  let computedWidth := (Z_to_number (width viewport) / 100)%float in
  switch_reference reference computedWidth computedHeight
    (Math_min computedWidth computedHeight)
    (Math_max computedWidth computedHeight) range
  = (axisUnit viewport reference * range)%float.
Proof.
  intros Hin. unfold switch_reference, axisUnit. cbv zeta.
  repeat match goal with
         | |- context [if ?b then _ else _] => destruct b; [reflexivity|]
         end.
  symmetry. exact (proj1 (Forall_forall _ _) zero_times_range range Hin).
Qed.

(** The outer loop, for a body that appends [out k] for the key [k]. *)
Lemma forEach_append {A : Type} (keys : list A)
    (body : A -> string * number -> completion (string * number))
    (out : A -> string) :
  (forall k CSSRules value, In k keys ->
     exists value', body k (CSSRules, value) = Normal (CSSRules ++ out k, value')) ->
  forall CSSRules value,
  exists value',
    forEach keys body (CSSRules, value)
    = Normal (CSSRules ++ join (map out keys), value').
Proof.
  induction keys as [|k keys IH]; intros Hbody CSSRules value; simpl.
  - exists value. now rewrite append_empty_r.
  - destruct (Hbody k CSSRules value (or_introl eq_refl)) as [v1 ->].
    destruct (IH (fun k' c v Hin => Hbody k' c v (or_intror Hin))
                (CSSRules ++ out k) v1) as [v2 ->].
    exists v2. now rewrite append_assoc.
Qed.

Lemma join_flat_map {A : Type} (f : A -> list string) (l : list A) :
  join (flat_map f l) = join (map (fun a => join (f a)) l).
Proof.
  induction l as [|a l IH]; simpl; [reflexivity|].
  now rewrite join_app, IH.
Qed.

(** [createCSSRules] on a rule map: the rules of [rules], concatenated;
    the world is left as it was. *)
Lemma createCSSRules_object (w : World) (m : RuleMap) :
  CSSMap (options (vunit w)) = VObject m ->
  createCSSRules w = (Normal (join (rules (viewportSize (vunit w)) m)), w).
Proof.
  intros Hmap. unfold createCSSRules, bind, get, lift, ret.
  rewrite Hmap. cbn [Object_keys].
  set (viewport := viewportSize (vunit w)).
  match goal with
  | |- context [forEach _ ?b _] => set (body := b)
  end.
  destruct (forEach_append (map fst m) body
              (fun selector =>
                 join match lookup m selector with
                      | Some e => rules_of_selector viewport selector e
                      | None => []
                      end)) with (CSSRules := "") (value := Z_to_number 0)
    as [v Hloop].
  - intros k CSSRules value Hin. subst body. cbv beta iota.
    destruct (lookup_key m k Hin) as [e He].
    unfold get_entry. rewrite He.
    eexists. f_equal.
    match goal with
    | |- ?p = _ => rewrite (surjective_pairing p)
    end.
    f_equal.
    rewrite (inner_loop
               (fun range =>
                  fill_template k range (VString (property e))
                    (switch_reference (reference e)
                       (Z_to_number (width viewport) / 100)%float
                       (Z_to_number (height viewport) / 100)%float
                       (Math_min (Z_to_number (width viewport) / 100)%float
                                 (Z_to_number (height viewport) / 100)%float)
                       (Math_max (Z_to_number (width viewport) / 100)%float
                                 (Z_to_number (height viewport) / 100)%float)
                       range))
               (fun range =>
                  switch_reference (reference e)
                    (Z_to_number (width viewport) / 100)%float
                    (Z_to_number (height viewport) / 100)%float
                    (Math_min (Z_to_number (width viewport) / 100)%float
                              (Z_to_number (height viewport) / 100)%float)
                    (Math_max (Z_to_number (width viewport) / 100)%float
                              (Z_to_number (height viewport) / 100)%float)
                    range)).
    f_equal. f_equal. unfold rules_of_selector.
    apply map_ext_in. intros range Hrange.
    f_equal. apply switch_reference_axisUnit. exact Hrange.
  - rewrite Hloop. cbn [fst]. unfold rules.
    now rewrite join_flat_map.
Qed.

(** ** The generator is a function of the viewport size and the rule map *)

Lemma createCSSRules_generate (w : World) :
  createCSSRules w
  = (generate (viewportSize (vunit w)) (CSSMap (options (vunit w))), w).
Proof.
  unfold generate, createCSSRules, bind, get, lift, ret.
  cbn [vunit options viewportSize CSSMap].
  destruct (Object_keys (CSSMap (options (vunit w)))) as [keys|e];
    [|reflexivity].
  match goal with
  | |- context [forEach ?k ?b ?s] => destruct (forEach k b s) as [locals|e]
  end; reflexivity.
Qed.

Lemma forEach_throws {A S : Type} (body : A -> S -> completion S) (e : error) :
  forall (l : list A) (s : S),
    forEach l body s = Throw e -> exists a s', body a s' = Throw e.
Proof.
  induction l as [|a l IH]; intros s; cbn; [discriminate|].
  destruct (body a s) as [s'|e'] eqn:Hbody; [apply IH|].
  intros [= ->]. now exists a, s.
Qed.

(** Rule generation throws nothing but a TypeError. *)
Lemma generate_throws (viewport : ViewportSize) (map : value) (e : error) :
  generate viewport map = Throw e -> e = TypeError.
Proof.
  unfold generate, createCSSRules, bind, get, lift, ret.
  cbn [vunit options viewportSize CSSMap].
  destruct (Object_keys map) as [keys|e0] eqn:Hkeys.
  - match goal with
    | |- context [forEach ?k ?b ?s] => destruct (forEach k b s) as [locals|e0] eqn:Hloop
    end; cbn [fst]; [discriminate|].
    intros [= ->].
    apply forEach_throws in Hloop as (selector & [CSSRules value] & Hbody).
    unfold get_entry in Hbody.
    destruct map as [| | | | | |m]; try discriminate; try (now injection Hbody).
    destruct (lookup m selector); [discriminate | now injection Hbody].
  - cbn [fst]. intros [= ->].
    destruct map; cbn in Hkeys; congruence.
Qed.

(** Publication throws nothing but a NotFoundError. *)
Lemma publish_throws (d : Document) (id : string) (e : Element) (err : error) :
  publish d id e = Throw err -> err = NotFoundError.
Proof.
  unfold publish.
  destruct (getElementById d id) as [[i|i]|]; cbn; try discriminate.
  now intros [= <-].
Qed.

Lemma rules_length (viewport : ViewportSize) (m : RuleMap) :
  List.length (rules viewport m) = (100 * List.length m)%nat.
Proof.
  unfold rules.
  assert (Hkeys : forall keys, (forall k, In k keys -> In k (map fst m)) ->
            List.length
              (flat_map (fun selector =>
                           match lookup m selector with
                           | Some e => rules_of_selector viewport selector e
                           | None => []
                           end) keys)
            = (100 * List.length keys)%nat).
  { induction keys as [|k keys IH]; intros Hin; [reflexivity|].
    cbn [flat_map]. rewrite List.length_app, IH by (intros; apply Hin; now right).
    destruct (lookup_key m k (Hin k (or_introl eq_refl))) as [e ->].
    unfold rules_of_selector. rewrite List.length_map.
    change (List.length ranges) with 100%nat. cbn [List.length]. lia. }
  rewrite Hkeys by auto. now rewrite List.length_map.
Qed.

(** ** Plain strings *)

Lemma plain_append (a b : string) : plain (a ++ b) = plain a && plain b.
Proof.
  induction a as [|c a IH]; simpl; [reflexivity|].
  now rewrite IH, andb_assoc.
Qed.

Lemma plain_char_not (c : ascii) :
  plain_char c = true ->
  Ascii.eqb c "$" = false /\ c <> "_"%char /\ Ascii.eqb c (ascii_of_nat 10) = false.
Proof.
  unfold plain_char. rewrite negb_true_iff, !orb_false_iff.
  intros [[H1 H2] H3]. repeat split; try assumption.
  now apply Ascii.eqb_neq.
Qed.

(** A plain replacement is inserted as it is. *)
Lemma GetSubstitution_plain (matched before after template : string) :
  plain template = true ->
  GetSubstitution matched before after template = template.
Proof.
  induction template as [|c rest IH]; simpl; [reflexivity|].
  intros [Hc Hrest]%andb_true_iff.
  destruct (plain_char_not c Hc) as (-> & _ & _).
  now rewrite IH.
Qed.

(** A placeholder is first found after a plain prefix. *)
Lemma split_first_plain (pat s rest : string) :
  plain s = true ->
  split_first (String "_" pat) (s ++ rest)
  = match split_first (String "_" pat) rest with
    | Some (before, after) => Some (s ++ before, after)
    | None => None
    end.
Proof.
  induction s as [|c s IH]; intros Hs.
  - cbn [append]. now destruct (split_first (String "_" pat) rest) as [[b a]|].
  - cbn [plain] in Hs. apply andb_true_iff in Hs as [Hc Hs].
    destruct (plain_char_not c Hc) as (_ & Hneq & _).
    cbn [append split_first prefix].
    destruct (ascii_dec "_" c) as [Heq|_]; [now subst|].
    rewrite (IH Hs).
    now destruct (split_first (String "_" pat) rest) as [[b a]|].
Qed.

Lemma string_of_uint_plain (d : Decimal.uint) :
  plain (NilEmpty.string_of_uint d) = true.
Proof. induction d; cbn; auto. Qed.

Lemma digits_plain (z : Z) : plain (digits z) = true.
Proof.
  unfold digits, NilZero.string_of_uint.
  destruct (N.to_uint (Z.to_N z)); try reflexivity; apply string_of_uint_plain.
Qed.

Lemma zeros_plain (n : nat) : plain (zeros n) = true.
Proof. induction n; cbn; auto. Qed.

Lemma substring_plain (s : string) :
  plain s = true -> forall n m, plain (substring n m s) = true.
Proof.
  induction s as [|c s IH]; intros Hs n m.
  - destruct n, m; reflexivity.
  - cbn [plain] in Hs. apply andb_true_iff in Hs as [Hc Hs].
    destruct n as [|n]; [destruct m as [|m]|]; cbn [substring plain];
      [reflexivity | rewrite Hc; now apply IH | now apply IH].
Qed.

Lemma format_decimal_plain (n k s : Z) : plain (format_decimal n k s) = true.
Proof.
  unfold format_decimal, take, drop.
  repeat match goal with
         | |- context [if ?b then _ else _] => destruct b
         end;
    repeat rewrite plain_append;
    repeat rewrite digits_plain;
    repeat rewrite zeros_plain;
    repeat rewrite (substring_plain _ (digits_plain s));
    reflexivity.
Qed.

(** A number is written with plain characters. *)
Lemma Number_toString_plain (x : number) : plain (Number_toString x) = true.
Proof.
  unfold Number_toString.
  destruct (Prim2SF x) as [sign|sign| |sign m e]; try reflexivity.
  - now destruct sign.
  - destruct (n_k_s (Z.pos m) e) as [[n k] s].
    rewrite plain_append, format_decimal_plain. now destruct sign.
Qed.

(** On a plain selector and a plain property the four replacements fill
    the four placeholders, in place. *)
Lemma fill_template_plain (selector property : string) (range value : number) :
  plain selector = true ->
  plain property = true ->
  fill_template selector range (VString property) value
  = written_rule selector range property value ++ newline.
Proof.
  intros Hsel Hprop. unfold fill_template, written_rule.
  (* _SELECTOR_ *)
  assert (E1 : String_replace CSSRuleTemplate "_SELECTOR_" selector
               = selector ++ "_RANGE_{_PROPERTY_:_VALUE_px}" ++ newline).
  { unfold String_replace.
    change (split_first "_SELECTOR_" CSSRuleTemplate)
      with (Some ("", "_RANGE_{_PROPERTY_:_VALUE_px}" ++ newline)).
    cbv beta iota.
    now rewrite (GetSubstitution_plain _ _ _ selector Hsel). }
  rewrite E1. clear E1.
  (* _RANGE_ *)
  assert (E2 : String_replace
                 (selector ++ "_RANGE_{_PROPERTY_:_VALUE_px}" ++ newline)
                 "_RANGE_" (Number_toString range)
               = (selector ++ Number_toString range ++ "{")
                 ++ "_PROPERTY_:_VALUE_px}" ++ newline).
  { unfold String_replace.
    rewrite (split_first_plain "RANGE_" selector _ Hsel).
    change (split_first "_RANGE_" ("_RANGE_{_PROPERTY_:_VALUE_px}" ++ newline))
      with (Some ("", "{_PROPERTY_:_VALUE_px}" ++ newline)).
    cbv beta iota.
    rewrite (GetSubstitution_plain _ _ _ _ (Number_toString_plain range)).
    rewrite append_empty_r, !append_assoc. reflexivity. }
  rewrite E2. clear E2.
  (* _PROPERTY_ *)
  assert (H1 : plain (selector ++ Number_toString range ++ "{") = true)
    by (now rewrite !plain_append, Hsel, Number_toString_plain).
  assert (E3 : String_replace
                 ((selector ++ Number_toString range ++ "{")
                  ++ "_PROPERTY_:_VALUE_px}" ++ newline)
                 "_PROPERTY_" (ToString (VString property))
               = (selector ++ Number_toString range ++ "{" ++ property ++ ":")
                 ++ "_VALUE_px}" ++ newline).
  { unfold String_replace.
    rewrite (split_first_plain "PROPERTY_" _ _ H1).
    change (split_first "_PROPERTY_" ("_PROPERTY_:_VALUE_px}" ++ newline))
      with (Some ("", ":_VALUE_px}" ++ newline)).
    cbv beta iota. cbn [ToString].
    rewrite (GetSubstitution_plain _ _ _ property Hprop).
    rewrite append_empty_r, !append_assoc. reflexivity. }
  rewrite E3. clear E3.
  (* _VALUE_ *)
  assert (H2 : plain (selector ++ Number_toString range ++ "{" ++ property ++ ":")
               = true)
    by (now rewrite !plain_append, Hsel, Hprop, Number_toString_plain).
  unfold String_replace.
  rewrite (split_first_plain "VALUE_" _ _ H2).
  change (split_first "_VALUE_" ("_VALUE_px}" ++ newline))
    with (Some ("", "px}" ++ newline)).
  cbv beta iota.
  rewrite (GetSubstitution_plain _ _ _ _ (Number_toString_plain value)).
  rewrite append_empty_r, !append_assoc. reflexivity.
Qed.

(** ** Lines *)

Lemma lines_from_line (l rest current : string) :
  plain l = true ->
  lines_from current (l ++ newline ++ rest) = (current ++ l) :: lines_from "" rest.
Proof.
  revert current. induction l as [|c l IH]; intros current Hl.
  - cbn. now rewrite append_empty_r.
  - cbn [plain] in Hl. apply andb_true_iff in Hl as [Hc Hl].
    destruct (plain_char_not c Hc) as (_ & _ & Hnl).
    cbn [append lines_from]. rewrite Hnl, (IH _ Hl).
    now rewrite append_assoc.
Qed.

(** A text made of plain lines, each ended by a line feed, has these
    lines. *)
Lemma lines_join (ls : list string) :
  forallb plain ls = true ->
  lines (join (map (fun l => l ++ newline) ls)) = ls.
Proof.
  unfold lines. induction ls as [|l ls IH]; [reflexivity|].
  cbn [forallb map join fold_right].
  intros [Hl Hls]%andb_true_iff.
  change (fold_right append "" (map (fun l0 => l0 ++ newline) ls))
    with (join (map (fun l0 => l0 ++ newline) ls)).
  rewrite append_assoc, (lines_from_line l _ "" Hl). cbn [append].
  now rewrite (IH Hls).
Qed.

(** ** The rules of a plain rule map, as text *)

Lemma plain_map_key (m : RuleMap) (selector : string) :
  plain_map m = true -> In selector (map fst m) -> plain selector = true.
Proof.
  unfold plain_map. rewrite forallb_forall. intros Hm Hin.
  apply in_map_iff in Hin as ([k e] & <- & Hin).
  now destruct (proj1 (andb_true_iff _ _) (Hm _ Hin)).
Qed.

Lemma plain_map_lookup (m : RuleMap) (selector : string) (e : RuleMapEntry) :
  plain_map m = true -> lookup m selector = Some e -> plain (property e) = true.
Proof.
  induction m as [|[k e'] m IH]; cbn; [discriminate|].
  intros [[_ He']%andb_true_iff Hm]%andb_true_iff.
  destruct (String.eqb k selector); [intros [= <-]; exact He' | now apply IH].
Qed.

Lemma written_rule_plain (selector property : string) (range value : number) :
  plain selector = true ->
  plain property = true ->
  plain (written_rule selector range property value) = true.
Proof.
  intros Hsel Hprop. unfold written_rule.
  now rewrite !plain_append, Hsel, Hprop, !Number_toString_plain.
Qed.

(** On a plain rule map every generated rule is a written rule and a
    line feed, and the written rules are plain. *)
Lemma rules_written (viewport : ViewportSize) (m : RuleMap) :
  plain_map m = true ->
  rules viewport m = map (fun l => l ++ newline) (written_rules viewport m)
  /\ forallb plain (written_rules viewport m) = true.
Proof.
  intros Hm. unfold rules, written_rules.
  assert (Hkeys : forall keys, (forall k, In k keys -> In k (map fst m)) ->
            flat_map (fun selector =>
                        match lookup m selector with
                        | Some e => rules_of_selector viewport selector e
                        | None => []
                        end) keys
            = map (fun l => l ++ newline)
                (flat_map (fun selector =>
                             match lookup m selector with
                             | Some e =>
                                 map (fun range =>
                                        written_rule selector range (property e)
                                          (axisUnit viewport (reference e) * range)%float)
                                     ranges
                             | None => []
                             end) keys)
            /\ forallb plain
                 (flat_map (fun selector =>
                              match lookup m selector with
                              | Some e =>
                                  map (fun range =>
                                         written_rule selector range (property e)
                                           (axisUnit viewport (reference e) * range)%float)
                                      ranges
                              | None => []
                              end) keys)
               = true).
  { induction keys as [|k keys IH]; intros Hin; [now split|].
    destruct IH as [IH1 IH2]; [intros; apply Hin; now right|].
    pose proof (plain_map_key m k Hm (Hin k (or_introl eq_refl))) as Hk.
    cbn [flat_map]. rewrite IH1, map_app, forallb_app, IH2.
    destruct (lookup m k) as [e|] eqn:He; [|now split].
    pose proof (plain_map_lookup m k e Hm He) as Hp.
    split.
    - f_equal. unfold rules_of_selector. rewrite map_map.
      apply map_ext. intros range. now apply fill_template_plain.
    - rewrite andb_true_r. apply forallb_forall.
      intros l (range & <- & _)%in_map_iff. now apply written_rule_plain. }
  now apply Hkeys.
Qed.

Lemma written_rules_length (viewport : ViewportSize) (m : RuleMap) :
  plain_map m = true ->
  List.length (written_rules viewport m) = (100 * List.length m)%nat.
Proof.
  intros Hm. rewrite <- (rules_length viewport m).
  rewrite (proj1 (rules_written viewport m Hm)). now rewrite List.length_map.
Qed.

(** The text generated for a plain rule map, line by line. *)
Lemma rules_lines (viewport : ViewportSize) (m : RuleMap) :
  plain_map m = true ->
  lines (join (rules viewport m)) = written_rules viewport m.
Proof.
  intros Hm. destruct (rules_written viewport m Hm) as [-> Hplain].
  now apply lines_join.
Qed.

(** ** Regular selectors and properties *)

Lemma length_append (a b : string) :
  String.length (a ++ b) = (String.length a + String.length b)%nat.
Proof. induction a as [|c a IH]; cbn; [reflexivity | now rewrite IH]. Qed.

Lemma split_first_unfold (pat s : string) :
  split_first pat s
  = if prefix pat s then Some ("", skip (String.length pat) s)
    else match s with
         | "" => None
         | String c s' =>
             match split_first pat s' with
             | Some (before, after) => Some (String c before, after)
             | None => None
             end
         end.
Proof. destruct s; reflexivity. Qed.

Lemma prefix_empty (s : string) : prefix "" s = true.
Proof. now destruct s. Qed.

Lemma prefix_append (p tail : string) : prefix p (p ++ tail) = true.
Proof.
  induction p as [|c p IH]; [apply prefix_empty|].
  cbn [append prefix]. now destruct (ascii_dec c c).
Qed.

Lemma skip_append (p tail : string) : skip (String.length p) (p ++ tail) = tail.
Proof. induction p as [|c p IH]; [now destruct tail | exact IH]. Qed.

(** A prefix of [a ++ b] no longer than [a] is a prefix of [a]. *)
Lemma prefix_within (p a b : string) :
  prefix p (a ++ b) = true ->
  (String.length p <= String.length a)%nat ->
  prefix p a = true.
Proof.
  revert a. induction p as [|c p IH]; intros a; [intros; apply prefix_empty|].
  destruct a as [|d a]; cbn [append String.length]; [lia|].
  cbn [prefix]. destruct (ascii_dec c d); [|discriminate].
  intros H Hlen. apply IH; [exact H | lia].
Qed.

(** A string that is not a prefix of [x] is not a prefix of [x] followed
    by a character it does not hold. *)
Lemma prefix_astride (p x t : string) (c : ascii) :
  prefix p x = false ->
  without c p = true ->
  prefix p (x ++ String c t) = false.
Proof.
  revert x. induction p as [|a p IH]; intros x;
    [now rewrite prefix_empty|].
  cbn [without]. intros Hx [Ha Hp]%andb_true_iff.
  destruct x as [|b x]; cbn [append prefix] in *.
  - destruct (ascii_dec a c) as [->|]; [|reflexivity].
    now rewrite Ascii.eqb_refl in Ha.
  - destruct (ascii_dec a b); [now apply IH | reflexivity].
Qed.

Lemma occurs_cons (pat s : string) (c : ascii) :
  occurs pat (String c s) = false ->
  prefix pat (String c s) = false /\ occurs pat s = false.
Proof.
  unfold occurs. rewrite (split_first_unfold pat (String c s)).
  destruct (prefix pat (String c s)); [discriminate|].
  destruct (split_first pat s) as [[b a]|]; [discriminate|]. now split.
Qed.

(** Past a text in which [pat] does not occur, and which is followed by
    a character [pat] does not hold, the first occurrence of [pat] is
    the first one of what follows. *)
Lemma split_first_after (pat s t : string) (c : ascii) :
  occurs pat s = false ->
  without c pat = true ->
  split_first pat (s ++ String c t)
  = match split_first pat (String c t) with
    | Some (before, after) => Some (s ++ before, after)
    | None => None
    end.
Proof.
  intros Hs Hc. induction s as [|d s IH].
  - cbn [append]. now destruct (split_first pat (String c t)) as [[b a]|].
  - destruct (occurs_cons pat s d Hs) as [Hpre Hs'].
    rewrite (split_first_unfold pat (String d s ++ String c t)).
    rewrite (prefix_astride _ _ t c Hpre Hc).
    cbn [append]. rewrite (IH Hs').
    now destruct (split_first pat (String c t)) as [[b a]|].
Qed.

(** A placeholder [init ++ c] that directly follows [s] is the first
    one found, unless an earlier one ends within its first characters
    [init]. *)
Lemma split_first_own (init s tail : string) (c : ascii) :
  occurs (init ++ String c "") (s ++ init) = false ->
  split_first (init ++ String c "") (s ++ (init ++ String c "") ++ tail)
  = Some (s, tail).
Proof.
  set (pat := init ++ String c "").
  induction s as [|d s IH]; intros Hs.
  - cbn [append]. rewrite split_first_unfold, prefix_append.
    now rewrite skip_append.
  - destruct (occurs_cons pat (s ++ init) d Hs) as [Hpre Hs'].
    rewrite (split_first_unfold pat (String d s ++ pat ++ tail)).
    destruct (prefix pat (String d s ++ pat ++ tail)) eqn:Hlong.
    + exfalso.
      assert (E : String d s ++ pat ++ tail
                  = (String d (s ++ init)) ++ String c tail).
      { unfold pat. cbn [append]. f_equal.
        rewrite !append_assoc. reflexivity. }
      rewrite E in Hlong.
      apply prefix_within in Hlong; [congruence|].
      unfold pat.
      change (String.length (String d (s ++ init)))
        with (S (String.length (s ++ init))).
      rewrite !length_append. cbn [String.length]. lia.
    + cbn [append]. now rewrite (IH Hs').
Qed.

(** A literal replacement text is inserted as it is. *)
Lemma GetSubstitution_literal (matched before after template : string) :
  literal template = true ->
  GetSubstitution matched before after template = template.
Proof.
  induction template as [|c rest IH]; [reflexivity|].
  cbn [literal GetSubstitution].
  intros [Hc Hrest]%andb_true_iff. specialize (IH Hrest).
  destruct (Ascii.eqb_spec c "$") as [->|_]; [|now rewrite IH].
  destruct rest as [|d r]; [reflexivity|].
  rewrite negb_true_iff, !orb_false_iff in Hc.
  destruct Hc as [[[-> ->] ->] ->]. now rewrite IH.
Qed.

Lemma without_literal (s : string) : without "$" s = true -> literal s = true.
Proof.
  induction s as [|c s IH]; [reflexivity|].
  cbn [without literal]. intros [Hc Hs]%andb_true_iff.
  apply negb_true_iff in Hc. now rewrite Hc, IH.
Qed.

Lemma plain_without (s : string) :
  plain s = true ->
  without "$" s = true /\ without "_" s = true /\ single_line s = true.
Proof.
  unfold single_line.
  induction s as [|c s IH]; cbn [plain without]; [now repeat split|].
  intros [Hc Hs]%andb_true_iff. destruct (IH Hs) as (-> & -> & ->).
  unfold plain_char in Hc. rewrite negb_true_iff, !orb_false_iff in Hc.
  destruct Hc as [[-> H2] ->]. rewrite H2. now repeat split.
Qed.


(** A number is written with a digit, a sign, [N] or [I] first: with no
    character of a placeholder. *)
Lemma digits_leading (z : Z) :
  exists c r,
    digits z = String c r
    /\ without c "_PROPERTY_" = true /\ without c "_VALUE_" = true.
Proof.
  unfold digits, NilZero.string_of_uint.
  destruct (N.to_uint (Z.to_N z)); cbn [NilEmpty.string_of_uint];
    do 2 eexists; (split; [reflexivity | split; reflexivity]).
Qed.

Lemma format_decimal_leading (n k s : Z) :
  exists c r,
    format_decimal n k s = String c r
    /\ without c "_PROPERTY_" = true /\ without c "_VALUE_" = true.
Proof.
  unfold format_decimal, take.
  destruct (digits_leading s) as (c & r & -> & Hc).
  destruct ((k <=? n) && (n <=? 21)).
  { cbn [append]. now do 2 eexists. }
  destruct ((0 <? n) && (n <=? 21)) eqn:Hpoint.
  { apply andb_true_iff in Hpoint as [Hpos _]. apply Z.ltb_lt in Hpos.
    destruct (Z.to_nat n) as [|j] eqn:Hj; [lia|].
    cbn [substring append]. now do 2 eexists. }
  destruct ((-6 <? n) && (n <=? 0)).
  { cbn [append]. do 2 eexists. split; [reflexivity | split; reflexivity]. }
  destruct (k =? 1).
  { cbn [append]. now do 2 eexists. }
  change (Z.to_nat 1) with 1%nat. cbn [substring append]. now do 2 eexists.
Qed.

Lemma Number_toString_leading (x : number) :
  exists c r,
    Number_toString x = String c r
    /\ without c "_PROPERTY_" = true /\ without c "_VALUE_" = true.
Proof.
  unfold Number_toString.
  destruct (Prim2SF x) as [sign|sign| |sign m e].
  - do 2 eexists. split; [reflexivity | split; reflexivity].
  - destruct sign; do 2 eexists; (split; [reflexivity | split; reflexivity]).
  - do 2 eexists. split; [reflexivity | split; reflexivity].
  - destruct (n_k_s (Z.pos m) e) as [[n k] s].
    destruct sign; cbn [append].
    + do 2 eexists. split; [reflexivity | split; reflexivity].
    + apply format_decimal_leading.
Qed.

(** The same past a text that is followed by a number. *)
Lemma split_first_past (pat s written rest r : string) (c : ascii) :
  occurs pat s = false ->
  written = String c r ->
  without c pat = true ->
  split_first pat (s ++ written ++ rest)
  = match split_first pat (written ++ rest) with
    | Some (before, after) => Some (s ++ before, after)
    | None => None
    end.
Proof. intros Hs -> Hc. exact (split_first_after pat s (r ++ rest) c Hs Hc). Qed.

(** On a regular selector and a regular property the four replacements
    fill the four placeholders of the template, in place. *)
Lemma fill_template_regular (selector property : string) (range value : number) :
  regular_selector selector = true ->
  regular_property property = true ->
  fill_template selector range (VString property) value
  = written_rule selector range property value ++ newline.
Proof.
  unfold regular_selector, regular_property.
  rewrite !andb_true_iff, !negb_true_iff.
  intros [[[Hdollar Hrange] Hproperty] Hvalue] [Hdollar' Hvalue'].
  destruct (Number_toString_leading range) as (c & r & HR & Hc1 & Hc2).
  pose proof (Number_toString_plain range) as HRplain.
  assert (H1 : plain (Number_toString range ++ "{") = true)
    by (now rewrite plain_append, HRplain).
  unfold fill_template, written_rule.
  (* _SELECTOR_ *)
  assert (E1 : String_replace CSSRuleTemplate "_SELECTOR_" selector
               = selector ++ "_RANGE_{_PROPERTY_:_VALUE_px}" ++ newline).
  { unfold String_replace.
    change (split_first "_SELECTOR_" CSSRuleTemplate)
      with (Some ("", "_RANGE_{_PROPERTY_:_VALUE_px}" ++ newline)).
    cbv beta iota.
    now rewrite (GetSubstitution_literal _ _ _ selector Hdollar). }
  rewrite E1. clear E1.
  (* _RANGE_ *)
  assert (E2 : String_replace
                 (selector ++ "_RANGE_{_PROPERTY_:_VALUE_px}" ++ newline)
                 "_RANGE_" (Number_toString range)
               = selector ++ Number_toString range
                 ++ "{_PROPERTY_:_VALUE_px}" ++ newline).
  { unfold String_replace.
    change (split_first "_RANGE_"
              (selector ++ "_RANGE_{_PROPERTY_:_VALUE_px}" ++ newline))
      with (split_first ("_RANGE" ++ String "_" "")
              (selector ++ ("_RANGE" ++ String "_" "")
               ++ ("{_PROPERTY_:_VALUE_px}" ++ newline))).
    rewrite (split_first_own "_RANGE" selector _ "_" Hrange).
    cbv beta iota.
    now rewrite (GetSubstitution_plain _ _ _ _ HRplain). }
  rewrite E2. clear E2.
  (* _PROPERTY_ *)
  assert (E3 : String_replace
                 (selector ++ Number_toString range
                  ++ "{_PROPERTY_:_VALUE_px}" ++ newline)
                 "_PROPERTY_" (ToString (VString property))
               = selector ++ Number_toString range ++ "{" ++ property
                 ++ ":_VALUE_px}" ++ newline).
  { unfold String_replace.
    rewrite (split_first_past "_PROPERTY_" selector _ _ r c Hproperty HR Hc1).
    change ("{_PROPERTY_:_VALUE_px}" ++ newline)
      with ("{" ++ "_PROPERTY_:_VALUE_px}" ++ newline).
    rewrite <- (append_assoc (Number_toString range) "{").
    rewrite (split_first_plain "PROPERTY_" _ _ H1).
    change (split_first "_PROPERTY_" ("_PROPERTY_:_VALUE_px}" ++ newline))
      with (Some ("", ":_VALUE_px}" ++ newline)).
    cbv beta iota. cbn [ToString].
    rewrite (GetSubstitution_literal _ _ _ property Hdollar').
    rewrite append_empty_r, !append_assoc. reflexivity. }
  rewrite E3. clear E3.
  (* _VALUE_ *)
  unfold String_replace.
  rewrite (split_first_past "_VALUE_" selector _ _ r c Hvalue HR Hc2).
  rewrite <- (append_assoc (Number_toString range) "{").
  rewrite (split_first_plain "VALUE_" _ _ H1).
  change (":_VALUE_px}" ++ newline) with (String ":" ("_VALUE_px}" ++ newline)).
  rewrite (split_first_after "_VALUE_" property _ ":" Hvalue' eq_refl).
  change (split_first "_VALUE_" (String ":" ("_VALUE_px}" ++ newline)))
    with (Some (":", "px}" ++ newline)).
  cbv beta iota.
  rewrite (GetSubstitution_plain _ _ _ _ (Number_toString_plain value)).
  rewrite !append_assoc. reflexivity.
Qed.

(** A plain string is regular, as a selector and as a property. *)
Lemma plain_regular (s : string) :
  plain s = true -> regular_selector s = true /\ regular_property s = true.
Proof.
  intros Hs. destruct (plain_without s Hs) as (Hdollar & Hunder & _).
  assert (Hno : forall pat rest, occurs (String "_" pat) (s ++ rest)
                                 = occurs (String "_" pat) rest).
  { intros pat rest. unfold occurs. rewrite (split_first_plain pat s rest Hs).
    now destruct (split_first (String "_" pat) rest) as [[b a]|]. }
  assert (Hnone : forall pat, occurs (String "_" pat) s = false).
  { intros pat. rewrite <- (append_empty_r s). now rewrite Hno. }
  unfold regular_selector, regular_property.
  now rewrite (without_literal s Hdollar), (Hno "RANGE_" "_RANGE"), !Hnone.
Qed.








(** ** The change check, unfolded *)

Lemma viewportHasChanged_run (w : World) :
  viewportHasChanged w = (Normal (differs w), sampled w).
Proof. reflexivity. Qed.

Lemma viewportHasChanged_differs (w : World) (b : bool) :
  fst (viewportHasChanged w) = Normal b <-> differs w = b.
Proof.
  rewrite viewportHasChanged_run. cbn [fst].
  split; [now intros [= ->] | now intros ->].
Qed.

(** [appendStylesheetOnHead] is [publish] on the document of the host. *)
Lemma appendStylesheetOnHead_run (stylesheet : Element) (w : World) :
  appendStylesheetOnHead stylesheet w
  = match publish (dom (host w)) (configured_id w) stylesheet with
    | Normal d => (Normal tt, {| vunit := vunit w; host := with_dom d (host w) |})
    | Throw e => (Throw e, w)
    end.
Proof.
  unfold appendStylesheetOnHead, publish, configured_id, set_dom, bind, get,
    put, lift, ret.
  destruct (getElementById (dom (host w))
              (ToString (stylesheetId (options (vunit w))))) as [n|];
    [|reflexivity].
  now destruct (removeChild (dom (host w)) n).
Qed.

Lemma differs_true (w : World) :
  differs w = true <->
  clientHeight (host w) <> height (viewportSize (vunit w))
  \/ clientWidth (host w) <> width (viewportSize (vunit w)).
Proof.
  unfold differs. rewrite orb_true_iff, !negb_true_iff, !Z.eqb_neq. tauto.
Qed.

Lemma differs_false (w : World) :
  differs w = false <->
  clientHeight (host w) = height (viewportSize (vunit w))
  /\ clientWidth (host w) = width (viewportSize (vunit w)).
Proof.
  unfold differs. rewrite orb_false_iff, !negb_false_iff, !Z.eqb_eq. tauto.
Qed.

(** A cycle in which nothing changed only stores the sample. *)
Lemma viewportObserver_unchanged (w : World) :
  differs w = false -> viewportObserver w = (Normal tt, sampled w).
Proof.
  intros H. unfold viewportObserver, bind. rewrite viewportHasChanged_run, H.
  reflexivity.
Qed.

(** A cycle in which rule generation throws stops there: the sample is
    stored, the document and the call log are untouched. *)
Lemma viewportObserver_generation_throws (w : World) (e : error) :
  differs w = true ->
  generate (viewportSize (vunit (sampled w))) (CSSMap (options (vunit w))) = Throw e ->
  viewportObserver w = (Throw e, sampled w).
Proof.
  intros Hd Hg. unfold viewportObserver, bind.
  rewrite viewportHasChanged_run, Hd.
  unfold createStylesheet, bind, get, ret.
  rewrite createCSSRules_generate. cbn [vunit options sampled] in *.
  now rewrite Hg.
Qed.

(** A cycle in which the viewport changed and rules were generated:
    the new style element is published, then [onResize] is called with
    the stored viewport size. *)
Lemma viewportObserver_changed (w : World) (CSSRules : string) :
  differs w = true ->
  generate (viewportSize (vunit (sampled w))) (CSSMap (options (vunit w)))
  = Normal CSSRules ->
  viewportObserver w
  = match publish (dom (host w)) (configured_id w) (new_stylesheet w CSSRules) with
    | Throw e => (Throw e, sampled w)
    | Normal d =>
        match onResize (options (vunit w)) with
        | VFunction cb =>
            (if throws cb (viewportSize (vunit (sampled w)))
             then Throw Thrown else Normal tt,
             {| vunit := vunit (sampled w);
                host := with_call cb (viewportSize (vunit (sampled w)))
                          (with_dom d (host w)) |})
        | _ =>
            (Throw TypeError,
             {| vunit := vunit (sampled w); host := with_dom d (host w) |})
        end
    end.
Proof.
  intros Hd Hg. unfold viewportObserver, bind.
  rewrite viewportHasChanged_run, Hd.
  unfold createStylesheet, bind, get, ret.
  rewrite createCSSRules_generate. cbn [vunit options sampled] in *.
  rewrite Hg.
  unfold appendCSSRulesToStylesheet, appendStylesheetOnHead, publish,
    new_stylesheet, configured_id, set_dom, call, bind, get, put, lift, ret.
  cbn [vunit options host sampled viewportSize].
  destruct (legacy (host w)); cbn;
    (destruct (getElementById (dom (host w))
                 (ToString (stylesheetId (options (vunit w))))) as [n|];
     [destruct (removeChild (dom (host w)) n) as [d|err]|]);
    try reflexivity;
    cbn [vunit options host sampled viewportSize];
    destruct (onResize (options (vunit w))) as [| | | | |cb|];
    try reflexivity;
    destruct (throws cb _); reflexivity.
Qed.

Lemma viewportObserver_outcome (w : World) :
  cycle_outcome w (fst (viewportObserver w)) (snd (viewportObserver w)).
Proof.
  destruct (differs w) eqn:Hd.
  2: { rewrite (viewportObserver_unchanged w Hd). now constructor. }
  destruct (generate (viewportSize (vunit (sampled w))) (CSSMap (options (vunit w))))
    as [CSSRules|e] eqn:Hg.
  2: { rewrite (viewportObserver_generation_throws w e Hd Hg). now constructor. }
  rewrite (viewportObserver_changed w CSSRules Hd Hg).
  destruct (publish (dom (host w)) (configured_id w) (new_stylesheet w CSSRules))
    as [d|e] eqn:Hp.
  2: { eapply PublishThrew; eassumption. }
  destruct (onResize (options (vunit w))) as [| | | | |cb|] eqn:Hcb;
    try (eapply CallbackThrew; [eassumption..|]; rewrite Hcb; discriminate).
  destruct (throws cb (viewportSize (vunit (sampled w)))) eqn:Hthrows;
    [eapply CallbackRaised | eapply Published]; eassumption.
Qed.

(* ===================================================================== *)
(** * Publication *)
(* ===================================================================== *)

Lemma find_index_None {A : Type} (f : A -> bool) (l : list A) :
  find_index f l = None -> filter f l = [].
Proof.
  induction l as [|a l IH]; simpl; [reflexivity|].
  destruct (f a); [discriminate|].
  destruct (find_index f l); [discriminate|]. intros _. now apply IH.
Qed.

(** Removing the first match leaves one match less. *)
Lemma find_index_Some {A : Type} (f : A -> bool) (l : list A) (i : nat) :
  find_index f l = Some i ->
  S (List.length (filter f (remove_nth i l))) = List.length (filter f l).
Proof.
  revert i. induction l as [|a l IH]; simpl; intros i; [discriminate|].
  destruct (f a) eqn:Hfa.
  - intros [= <-]. reflexivity.
  - destruct (find_index f l) as [j|]; [|discriminate].
    intros [= <-]. cbn [remove_nth filter]. rewrite Hfa. now apply IH.
Qed.

Lemma length_zero_nil {A : Type} (l : list A) : List.length l = O -> l = [].
Proof. destruct l; [reflexivity | discriminate]. Qed.

Lemma new_stylesheet_has_id (w : World) (CSSRules : string) :
  has_id (configured_id w) (new_stylesheet w CSSRules) = true.
Proof.
  unfold has_id, getAttribute, new_stylesheet, stylesheet_attributes.
  cbn. apply String.eqb_refl.
Qed.

Lemma new_stylesheet_cssText (w : World) (CSSRules : string) :
  cssText (new_stylesheet w CSSRules) = CSSRules.
Proof.
  unfold cssText, new_stylesheet. destruct (legacy (host w)); reflexivity.
Qed.

(** A completed publish leaves exactly the new element bearing the
    identifier, provided at most one element bore it before. *)
Lemma publish_bearing (d d' : Document) (id : string) (e : Element) :
  id <> "" ->
  has_id id e = true ->
  (List.length (bearing id d) <= 1)%nat ->
  publish d id e = Normal d' ->
  bearing id d' = [e].
Proof.
  intros Hid He Hone. unfold publish, getElementById.
  destruct (String.eqb_spec id "") as [|_]; [contradiction|].
  unfold bearing in *. rewrite filter_app, List.length_app in Hone.
  destruct (find_index (has_id id) (head d)) as [i|] eqn:Hhead.
  - cbn [removeChild]. intros [= <-]. cbn [appendChild head body].
    pose proof (find_index_Some _ _ _ Hhead) as Hrem.
    rewrite !filter_app. cbn [filter]. rewrite He.
    rewrite (length_zero_nil (filter (has_id id) (remove_nth i (head d)))) by lia.
    rewrite (length_zero_nil (filter (has_id id) (body d))) by lia.
    reflexivity.
  - destruct (find_index (has_id id) (body d)) as [j|] eqn:Hbody;
      cbn [option_map removeChild]; [discriminate|].
    intros [= <-]. cbn [appendChild head body].
    rewrite !filter_app. cbn [filter]. rewrite He.
    now rewrite (find_index_None _ _ Hhead), (find_index_None _ _ Hbody).
Qed.

(** ** What a cycle preserves *)

Lemma cycle_outcome_options (w w' : World) (r : completion unit) :
  cycle_outcome w r w' ->
  options (vunit w') = options (vunit w) /\ legacy (host w') = legacy (host w).
Proof. intros H; destruct H; split; reflexivity. Qed.

Lemma cycle_outcome_viewportSize (w w' : World) (r : completion unit) :
  cycle_outcome w r w' ->
  viewportSize (vunit w')
  = {| height := clientHeight (host w); width := clientWidth (host w) |}.
Proof. intros H; destruct H; reflexivity. Qed.

(** At most one element bears the identifier after a cycle if at most
    one did before, however the cycle ends. *)
Lemma cycle_outcome_at_most_one (w w' : World) (r : completion unit) :
  configured_id w <> "" ->
  (List.length (bearing (configured_id w) (dom (host w))) <= 1)%nat ->
  cycle_outcome w r w' ->
  (List.length (bearing (configured_id w) (dom (host w'))) <= 1)%nat.
Proof.
  intros Hid Hone H; destruct H; cbn [host sampled dom with_dom with_call];
    try assumption.
  all: match goal with
       | Hp : publish _ _ _ = Normal _ |- _ =>
           rewrite (publish_bearing _ _ _ _ Hid
                      (new_stylesheet_has_id w CSSRules) Hone Hp)
       end; cbn; lia.
Qed.

(* ===================================================================== *)
(** * The constructor *)
(* ===================================================================== *)

(** Past the guard, the constructor runs the first cycle and, if that
    completes, arms the timer. *)
Lemma vUnit_started (argument : option Options) (h : Host) :
  available h = true ->
  vUnit argument h
  = match viewportObserver {| vunit := initial argument; host := h |} with
    | (Throw e, w) =>
        {| completed := Throw e; this := Some (vunit w); after := host w |}
    | (Normal _, w) =>
        {| completed := Normal VUndefined;
           this := Some (vunit w);
           after := setInterval (viewportObserverInterval (options (vunit w)))
                      (host w) |}
    end.
Proof.
  unfold available, vUnit.
  destruct (window h) as [|win]; [discriminate|].
  destruct (document h) as [|doc]; [discriminate|].
  intros [-> ->]%andb_true_iff. reflexivity.
Qed.

Lemma not_In_forallb (x : string) (l : list string) :
  forallb (fun y => negb (String.eqb y x)) l = true -> ~ In x l.
Proof.
  intros H Hin. rewrite forallb_forall in H. specialize (H x Hin).
  now rewrite String.eqb_refl in H.
Qed.

(* ===================================================================== *)
(** * The claims *)
(* ===================================================================== *)

(** C1 (as amended).  On a rule map, [createCSSRules] returns the rules of
    [rules], where each rule carries the value [axisUnit * range] for
    range 1 to 100 and [axisUnit] is a hundredth of the width for [vw], of
    the height for [vh], the smaller of the two for [vmin], the larger for
    [vmax] and 0 for any other or missing reference.  For the viewport
    1000x500 and the selector [.vw50] the rule at range 50 is
    [.vw5050{width:500px}], and it is [.vw50{width:500px}] for the
    selector [.vw]; for the viewport 800x400 the [vmin] rule at range 10
    has 40px and the [vmax] rule 80px.  Whenever the selector and the
    property are regular, a rule reads selector, range,
    [{property:value px}]. *)
Theorem C1_rule_values :
  (forall (w : World) (m : RuleMap),
     CSSMap (options (vunit w)) = VObject m ->
     createCSSRules w
     = (Normal (join (rules (viewportSize (vunit w)) m)), w))
  /\ (forall (selector property : string) (range value : number),
        regular_selector selector = true ->
        regular_property property = true ->
        fill_template selector range (VString property) value
        = selector ++ Number_toString range ++ "{" ++ property ++ ":"
          ++ Number_toString value ++ "px}" ++ newline)
  /\ nth 49 (rules viewport_1000_500 map_vw50) ""
     = ".vw5050{width:500px}" ++ newline
  /\ nth 49 (rules viewport_1000_500 map_vw) ""
     = ".vw50{width:500px}" ++ newline
  /\ nth 9 (rules viewport_800_400 map_min_max) ""
     = ".min10{font-size:40px}" ++ newline
  /\ nth 109 (rules viewport_800_400 map_min_max) ""
     = ".max10{font-size:80px}" ++ newline.
Proof.
  split; [exact createCSSRules_object|].
  split.
  - intros selector property range value Hsel Hprop.
    rewrite (fill_template_regular selector property range value Hsel Hprop).
    unfold written_rule. now rewrite !append_assoc.
  - repeat split; vm_compute; reflexivity.
Qed.

Lemma C1_rule_values_witness :
  createCSSRules
    (sample_world (Some (only_CSSMap (VObject map_vw50))) viewport_1000_500)
  = (Normal (join (rules viewport_1000_500 map_vw50)),
     sample_world (Some (only_CSSMap (VObject map_vw50))) viewport_1000_500).
Proof.
  exact (proj1 C1_rule_values
           (sample_world (Some (only_CSSMap (VObject map_vw50))) viewport_1000_500)
           map_vw50 eq_refl).
Defined.

(** C1 as stated fails on its own example: with the viewport 1000x500 and
    the map [{".vw50": {property: "width", reference: "vw"}}] the rule at
    range 50 is [.vw5050{width:500px}], and no generated rule is
    [.vw50{width:500px}]. *)
Lemma C1_counterexample :
  exists text,
    createCSSRules
      (sample_world (Some (only_CSSMap (VObject map_vw50))) viewport_1000_500)
    = (Normal text,
       sample_world (Some (only_CSSMap (VObject map_vw50))) viewport_1000_500)
    /\ nth 49 (lines text) "" = ".vw5050{width:500px}"
    /\ nth 49 (lines text) "" <> ".vw50{width:500px}"
    /\ ~ In ".vw50{width:500px}" (lines text).
Proof.
  eexists. split; [vm_compute; reflexivity|].
  split; [vm_compute; reflexivity|].
  split.
  - intros H. vm_compute in H. discriminate H.
  - apply not_In_forallb. vm_compute. reflexivity.
Qed.

(** C2 (as amended).  A freshly constructed instance stores the viewport
    size 0x0, and its first change check returns true exactly when the
    sampled viewport differs from 0x0 in height or in width; for the
    sample 0x0 it returns false, and the constructor then publishes
    nothing and calls no callback on its first cycle. *)
Theorem C2_first_check (argument : option Options) (h : Host) :
  viewportSize (vunit (fresh argument h)) = viewport_0_0
  /\ fst (viewportHasChanged (fresh argument h))
     = Normal (negb (clientHeight h =? 0) || negb (clientWidth h =? 0))
  /\ (fst (viewportHasChanged (fresh argument h)) = Normal true
      <-> clientHeight h <> 0 \/ clientWidth h <> 0)
  /\ (fst (viewportHasChanged (fresh argument h)) = Normal false
      <-> clientHeight h = 0 /\ clientWidth h = 0)
  /\ (available h = true ->
      clientHeight h = 0 ->
      clientWidth h = 0 ->
      completed (vUnit argument h) = Normal VUndefined
      /\ dom (after (vUnit argument h)) = dom h
      /\ calls (after (vUnit argument h)) = calls h).
Proof.
  rewrite viewportHasChanged_run. cbn [fst].
  split; [reflexivity|]. split; [reflexivity|].
  split; [|split].
  - rewrite <- (differs_true (fresh argument h)).
    split; [now intros [= ->] | now intros ->].
  - rewrite <- (differs_false (fresh argument h)).
    split; [now intros [= ->] | now intros ->].
  - intros Havail Hheight Hwidth.
    rewrite (vUnit_started argument h Havail).
    rewrite (viewportObserver_unchanged {| vunit := initial argument; host := h |})
      by (now apply differs_false).
    now cbn.
Qed.

Lemma C2_first_check_witness :
  completed (vUnit (Some (only_CSSMap (VObject map_vw)))
               (browser empty_document viewport_0_0))
  = Normal VUndefined
  /\ dom (after (vUnit (Some (only_CSSMap (VObject map_vw)))
                   (browser empty_document viewport_0_0)))
     = empty_document.
Proof.
  destruct (C2_first_check (Some (only_CSSMap (VObject map_vw)))
              (browser empty_document viewport_0_0))
    as (_ & _ & _ & _ & Hstart).
  destruct Hstart as (Hdone & Hdom & _); try reflexivity.
  exact (conj Hdone Hdom).
Defined.

(** C2 as stated fails: on a fresh instance with the viewport at 0x0 the
    first change check returns false. *)
Lemma C2_counterexample :
  fst (viewportHasChanged (fresh None (browser empty_document viewport_0_0)))
  = Normal false
  /\ fst (viewportHasChanged (fresh None (browser empty_document viewport_0_0)))
     <> Normal true.
Proof. split; [reflexivity | discriminate]. Qed.

Lemma ViewportSize_neq (A B : ViewportSize) :
  A <> B <-> height A <> height B \/ width A <> width B.
Proof.
  destruct A as [hA wA], B as [hB wB]; cbn. split.
  - intros Hneq. destruct (Z.eq_dec hA hB) as [->|]; [|now left].
    right. intros ->. now apply Hneq.
  - intros [H|H] [= -> ->]; now apply H.
Qed.

Lemma check_run (sample : ViewportSize) (w : World) :
  check sample w
  = (Normal (negb (height sample =? height (viewportSize (vunit w)))
             || negb (width sample =? width (viewportSize (vunit w)))),
     {| vunit := {| options := options (vunit w); viewportSize := sample |};
        host := with_client sample (host w) |}).
Proof. destruct sample; reflexivity. Qed.

(** C3.  A change check with the sample [B] returns true exactly when [B]
    differs from the stored viewport size in height or in width, and
    false exactly when it equals it; whatever it returns, the stored
    viewport size is [B] afterwards.  Hence, for [A <> B], the check of
    [B] after a check of [A] returns true, and the check of [B] again
    right after returns false. *)
Theorem C3_change_detection (w : World) (A B : ViewportSize) :
  (fst (check B w) = Normal true
   <-> height B <> height (viewportSize (vunit w))
       \/ width B <> width (viewportSize (vunit w)))
  /\ (fst (check B w) = Normal false <-> B = viewportSize (vunit w))
  /\ viewportSize (vunit (snd (check B w))) = B
  /\ (A <> B ->
      fst (check B (snd (check A w))) = Normal true
      /\ fst (check B (snd (check B (snd (check A w))))) = Normal false).
Proof.
  assert (Htrue : forall (S : ViewportSize) (v : World),
             fst (check S v) = Normal true <-> S <> viewportSize (vunit v)).
  { intros S v. rewrite check_run, ViewportSize_neq. cbn [fst].
    rewrite <- !Z.eqb_neq, <- !negb_true_iff, <- orb_true_iff.
    split; [now intros [= ->] | now intros ->]. }
  assert (Hfalse : forall (S : ViewportSize) (v : World),
             fst (check S v) = Normal false <-> S = viewportSize (vunit v)).
  { intros S v. split.
    - intros Hf. destruct (viewportSize (vunit v)) as [hv wv] eqn:Hv.
      destruct S as [hS wS].
      rewrite check_run, Hv in Hf. cbn in Hf. injection Hf as Hf.
      apply orb_false_iff in Hf as [H1 H2].
      apply negb_false_iff, Z.eqb_eq in H1, H2. now subst.
    - intros ->. rewrite check_run. cbn [fst]. now rewrite !Z.eqb_refl. }
  assert (Hstored : forall (S : ViewportSize) (v : World),
             viewportSize (vunit (snd (check S v))) = S).
  { intros S v. now rewrite check_run. }
  split; [rewrite Htrue; apply ViewportSize_neq|].
  split; [apply Hfalse|]. split; [apply Hstored|].
  intros Hneq. split.
  - apply Htrue. rewrite Hstored. congruence.
  - apply Hfalse. now rewrite Hstored.
Qed.

Lemma C3_change_detection_witness :
  fst (check viewport_800_400
         (snd (check viewport_1000_500 (fresh None (browser empty_document viewport_0_0)))))
  = Normal true
  /\ fst (check viewport_800_400
            (snd (check viewport_800_400
                    (snd (check viewport_1000_500
                            (fresh None (browser empty_document viewport_0_0)))))))
     = Normal false.
Proof.
  apply (C3_change_detection (fresh None (browser empty_document viewport_0_0))
           viewport_1000_500 viewport_800_400).
  discriminate.
Defined.

Lemma generate_null (viewport : ViewportSize) (map : value) :
  map = VNull \/ map = VUndefined -> generate viewport map = Throw TypeError.
Proof. intros [-> | ->]; reflexivity. Qed.

(** A missing or falsy [CSSMap] option is configured as [null]. *)
Lemma resolve_options_no_CSSMap (argument : option Options) :
  match argument with
  | None => True
  | Some opts => ToBoolean (CSSMap opts) = false
  end ->
  CSSMap (resolve_options argument) = VNull.
Proof.
  destruct argument as [opts|]; cbn; [|reflexivity].
  unfold or_else. now intros ->.
Qed.

(** C4.  With the rule map configured as [null] (or left undefined),
    [createCSSRules] throws a TypeError at once and returns no text; the
    exception reaches the caller of the generation step: a cycle that
    detects a change throws it, with nothing published and no callback
    called, and so does the constructor on its first cycle, before any
    timer is armed. *)
Theorem C4_missing_rule_map :
  (forall w : World,
     CSSMap (options (vunit w)) = VNull \/ CSSMap (options (vunit w)) = VUndefined ->
     createCSSRules w = (Throw TypeError, w)
     /\ (fst (viewportHasChanged w) = Normal true ->
         fst (viewportObserver w) = Throw TypeError
         /\ dom (host (snd (viewportObserver w))) = dom (host w)
         /\ calls (host (snd (viewportObserver w))) = calls (host w)))
  /\ (forall (argument : option Options) (h : Host),
        match argument with
        | None => True
        | Some opts => ToBoolean (CSSMap opts) = false
        end ->
        available h = true ->
        clientHeight h <> 0 \/ clientWidth h <> 0 ->
        completed (vUnit argument h) = Throw TypeError
        /\ dom (after (vUnit argument h)) = dom h
        /\ calls (after (vUnit argument h)) = calls h
        /\ intervals (after (vUnit argument h)) = intervals h).
Proof.
  assert (Hcycle : forall w : World,
            CSSMap (options (vunit w)) = VNull
            \/ CSSMap (options (vunit w)) = VUndefined ->
            differs w = true ->
            viewportObserver w = (Throw TypeError, sampled w)).
  { intros w Hnull Hd.
    apply viewportObserver_generation_throws; [exact Hd|].
    now apply generate_null. }
  split.
  - intros w Hnull. split.
    + rewrite createCSSRules_generate. now rewrite generate_null.
    + intros Hd%viewportHasChanged_differs. now rewrite (Hcycle w Hnull Hd).
  - intros argument h Harg Havail Hsize.
    rewrite (vUnit_started argument h Havail).
    rewrite (Hcycle {| vunit := initial argument; host := h |}).
    + now cbn.
    + left. cbn [vunit options initial]. now apply resolve_options_no_CSSMap.
    + now apply (differs_true {| vunit := initial argument; host := h |}).
Qed.

Lemma C4_missing_rule_map_witness :
  createCSSRules (fresh None (browser empty_document viewport_1000_500))
  = (Throw TypeError, fresh None (browser empty_document viewport_1000_500))
  /\ completed (vUnit None (browser empty_document viewport_1000_500))
     = Throw TypeError.
Proof.
  split.
  - apply (proj1 C4_missing_rule_map
             (fresh None (browser empty_document viewport_1000_500))).
    left. reflexivity.
  - apply (proj2 C4_missing_rule_map None
             (browser empty_document viewport_1000_500)).
    + exact I.
    + reflexivity.
    + left. discriminate.
Defined.

(** C5 (as amended).  When [window] or [document] is not bound to a truthy
    value the constructor declines to start: it leaves the host as it
    found it (no stylesheet published, no callback called, no timer
    armed) and sets nothing on the instance.  It signals nothing,
    however: it returns [undefined], as a successful start does, unless
    the identifier it evaluates is not declared at all, in which case
    evaluating the guard throws a ReferenceError. *)
Theorem C5_no_host (argument : option Options) (h : Host) :
  available h = false ->
  after (vUnit argument h) = h
  /\ this (vUnit argument h) = None
  /\ (completed (vUnit argument h) = Normal VUndefined
      \/ completed (vUnit argument h) = Throw ReferenceError)
  /\ (completed (vUnit argument h) = Throw ReferenceError
      <-> window h = Undeclared
          \/ (exists win, window h = Bound win /\ ToBoolean win = true
                          /\ document h = Undeclared)).
Proof.
  unfold available, vUnit.
  destruct (window h) as [|win] eqn:Hwin.
  { intros _. cbn. repeat split; auto. }
  destruct (ToBoolean win) eqn:Htruthy; cbn [negb].
  2: { intros _. cbn. repeat split; auto; try discriminate.
       intros [H | (win' & [= <-] & Ht & _)]; congruence. }
  destruct (document h) as [|doc] eqn:Hdoc.
  { intros _. cbn. repeat split; auto. right. now exists win. }
  cbn [andb]. intros ->. cbn. repeat split; auto; try discriminate.
  intros [H | (win' & _ & _ & H)]; discriminate.
Qed.

Lemma C5_no_host_witness :
  after (vUnit None host_without_document) = host_without_document
  /\ this (vUnit None host_without_document) = None.
Proof.
  destruct (C5_no_host None host_without_document eq_refl) as (Hafter & Hthis & _).
  exact (conj Hafter Hthis).
Defined.

(** C5 as stated fails: without a document the constructor returns
    [undefined], which is also what a successful start returns, so the
    caller receives no failure indication. *)
Lemma C5_counterexample :
  available host_without_document = false
  /\ completed (vUnit None host_without_document) = Normal VUndefined
  /\ completed
       (vUnit (Some (only_CSSMap (VObject map_vw)))
          (browser empty_document viewport_1000_500))
     = Normal VUndefined
  /\ intervals
       (after (vUnit (Some (only_CSSMap (VObject map_vw)))
                 (browser empty_document viewport_1000_500)))
     = [VNumber 100%float].
Proof. repeat split; vm_compute; reflexivity. Qed.

Lemma cycle_outcome_of (sample : ViewportSize) (w : World) :
  cycle_outcome (resize sample w) (fst (cycle sample w)) (snd (cycle sample w)).
Proof. apply viewportObserver_outcome. Qed.

Lemma sampled_resize (sample : ViewportSize) (w : World) :
  viewportSize (vunit (sampled (resize sample w))) = sample.
Proof. destruct sample; reflexivity. Qed.

(** A cycle keeps the options and the kind of host. *)
Lemma cycle_keeps (sample : ViewportSize) (w : World) :
  options (vunit (snd (cycle sample w))) = options (vunit w)
  /\ legacy (host (snd (cycle sample w))) = legacy (host w).
Proof. exact (cycle_outcome_options _ _ _ (cycle_outcome_of sample w)). Qed.

Lemma cycle_at_most_one (sample : ViewportSize) (w : World) :
  configured_id w <> "" ->
  (List.length (bearing (configured_id w) (dom (host w))) <= 1)%nat ->
  (List.length (bearing (configured_id w) (dom (host (snd (cycle sample w))))) <= 1)%nat.
Proof.
  intros Hid Hone.
  exact (cycle_outcome_at_most_one (resize sample w) _ _ Hid Hone
           (cycle_outcome_of sample w)).
Qed.

(** A cycle that detected a change and completed leaves exactly the
    element built from the text generated for its sample. *)
Lemma cycle_published (sample : ViewportSize) (w : World) :
  configured_id w <> "" ->
  (List.length (bearing (configured_id w) (dom (host w))) <= 1)%nat ->
  fst (check sample w) = Normal true ->
  fst (cycle sample w) = Normal tt ->
  exists CSSRules,
    generate sample (CSSMap (options (vunit w))) = Normal CSSRules
    /\ bearing (configured_id w) (dom (host (snd (cycle sample w))))
       = [new_stylesheet w CSSRules].
Proof.
  intros Hid Hone Hd%viewportHasChanged_differs Hdone.
  pose proof (cycle_outcome_of sample w) as Ho. rewrite Hdone in Ho.
  inversion Ho as [Hu | | | | CSSRules d cb _ Hg Hp Hcb Hret Hw | ];
    [congruence|].
  exists CSSRules. rewrite sampled_resize in Hg. split; [exact Hg|].
  cbn [host dom with_call with_dom].
  exact (publish_bearing _ _ _ _ Hid
           (new_stylesheet_has_id (resize sample w) CSSRules) Hone Hp).
Qed.

(** C6 (as amended).  Provided the configured identifier is not empty and
    at most one element of the document bears it to begin with, that
    remains so after any number of cycles, a completed publish leaves
    exactly one such element, the new style element, and after any number
    of successive cycles that each detected a change and completed,
    exactly one element bears the identifier: the style element whose
    text is the text generated for the last sample. *)
Theorem C6_single_published_node (w : World) :
  configured_id w <> "" ->
  (List.length (bearing (configured_id w) (dom (host w))) <= 1)%nat ->
  (forall samples : list ViewportSize,
     (List.length (bearing (configured_id w) (dom (host (cycles samples w)))) <= 1)%nat)
  /\ (forall (stylesheet : Element) (w' : World),
        has_id (configured_id w) stylesheet = true ->
        appendStylesheetOnHead stylesheet w = (Normal tt, w') ->
        bearing (configured_id w) (dom (host w')) = [stylesheet])
  /\ (forall (samples : list ViewportSize) (last : ViewportSize),
        detected (samples ++ [last]) w ->
        exists CSSRules,
          generate last (CSSMap (options (vunit w))) = Normal CSSRules
          /\ bearing (configured_id w) (dom (host (cycles (samples ++ [last]) w)))
             = [new_stylesheet w CSSRules]
          /\ tagName (new_stylesheet w CSSRules) = "style"
          /\ cssText (new_stylesheet w CSSRules) = CSSRules).
Proof.
  intros Hid Hone. split; [|split].
  - intros samples. revert w Hid Hone.
    induction samples as [|sample rest IH]; intros w Hid Hone; [exact Hone|].
    cbn [cycles].
    destruct (cycle_keeps sample w) as [Hopt _].
    assert (Hsame : configured_id (snd (cycle sample w)) = configured_id w)
      by (unfold configured_id; now rewrite Hopt).
    rewrite <- Hsame. apply IH; rewrite Hsame;
      [exact Hid | now apply cycle_at_most_one].
  - intros stylesheet w' Hstyle. rewrite appendStylesheetOnHead_run.
    destruct (publish (dom (host w)) (configured_id w) stylesheet) as [d|e] eqn:Hp;
      [|discriminate].
    intros [= <-]. cbn [host dom with_dom].
    exact (publish_bearing _ _ _ _ Hid Hstyle Hone Hp).
  - intros samples. revert w Hid Hone.
    induction samples as [|sample rest IH]; intros w Hid Hone last.
    + cbn [app detected cycles]. intros (Hd & Hdone & _).
      destruct (cycle_published last w Hid Hone Hd Hdone) as (CSSRules & Hg & Hb).
      exists CSSRules. repeat split; try assumption.
      apply new_stylesheet_cssText.
    + cbn [app detected cycles]. intros (_ & _ & Hrest).
      destruct (cycle_keeps sample w) as [Hopt Hleg].
      assert (Hsame : configured_id (snd (cycle sample w)) = configured_id w)
        by (unfold configured_id; now rewrite Hopt).
      destruct (IH (snd (cycle sample w))) with (last := last)
        as (CSSRules & Hg & Hb & Htag & Htext).
      * now rewrite Hsame.
      * rewrite Hsame. now apply cycle_at_most_one.
      * exact Hrest.
      * assert (Hnew : new_stylesheet (snd (cycle sample w)) CSSRules
                       = new_stylesheet w CSSRules)
          by (unfold new_stylesheet; now rewrite Hsame, Hleg).
        exists CSSRules. rewrite Hopt in Hg. rewrite Hsame, Hnew in Hb.
        rewrite Hnew in Htag, Htext. now repeat split.
Qed.

Lemma C6_single_published_node_witness :
  exists CSSRules,
    generate viewport_800_400 (VObject map_vw) = Normal CSSRules
    /\ bearing "v-unit-stylesheet"
         (dom (host (cycles two_resizes
                       (fresh (Some (only_CSSMap (VObject map_vw)))
                          (browser empty_document viewport_0_0)))))
       = [new_stylesheet
            (fresh (Some (only_CSSMap (VObject map_vw)))
               (browser empty_document viewport_0_0))
            CSSRules].
Proof.
  destruct (C6_single_published_node
              (fresh (Some (only_CSSMap (VObject map_vw)))
                 (browser empty_document viewport_0_0)))
    as (_ & _ & Hcycles).
  - discriminate.
  - cbn. lia.
  - destruct (Hcycles [viewport_1000_500] viewport_800_400)
      as (CSSRules & Hg & Hb & _).
    + vm_compute. repeat split.
    + exists CSSRules. exact (conj Hg Hb).
Defined.

(** C6 as stated fails on a page whose head already holds two elements
    with the identifier: a publish removes the first of them only.  After
    one cycle that detected a change and completed, a [link] and the new
    [style] bear the identifier; after a second one, two [style] elements
    do, the first of which still holds the text of the first cycle. *)
Lemma C6_counterexample :
  detected two_resizes
    (fresh (Some (only_CSSMap (VObject map_vw)))
       (browser document_with_two_bearers viewport_0_0))
  /\ map tagName
       (bearing "v-unit-stylesheet"
          (dom (host (cycles [viewport_1000_500]
                        (fresh (Some (only_CSSMap (VObject map_vw)))
                           (browser document_with_two_bearers viewport_0_0))))))
     = ["link"; "style"]
  /\ map tagName
       (bearing "v-unit-stylesheet"
          (dom (host (cycles two_resizes
                        (fresh (Some (only_CSSMap (VObject map_vw)))
                           (browser document_with_two_bearers viewport_0_0))))))
     = ["style"; "style"]
  /\ map cssText
       (bearing "v-unit-stylesheet"
          (dom (host (cycles two_resizes
                        (fresh (Some (only_CSSMap (VObject map_vw)))
                           (browser document_with_two_bearers viewport_0_0))))))
     = [join (rules viewport_1000_500 map_vw); join (rules viewport_800_400 map_vw)].
Proof. vm_compute. repeat split. Qed.




(** C8.  [createCSSRules] is a function of the stored viewport size and
    the configured rule map alone, and it changes nothing: on any world it
    returns what [generate] returns for these two, and leaves the world as
    it was; called twice in a row it yields the same text twice. *)
Theorem C8_generation_is_pure (w : World) :
  createCSSRules w
  = (generate (viewportSize (vunit w)) (CSSMap (options (vunit w))), w)
  /\ (first <- createCSSRules ;; second <- createCSSRules ;; ret (first, second)) w
     = match generate (viewportSize (vunit w)) (CSSMap (options (vunit w))) with
       | Normal text => (Normal (text, text), w)
       | Throw e => (Throw e, w)
       end.
Proof.
  split; [apply createCSSRules_generate|].
  unfold bind, ret. rewrite createCSSRules_generate.
  destruct (generate (viewportSize (vunit w)) (CSSMap (options (vunit w))))
    as [text|e] eqn:Hg; [|reflexivity].
  now rewrite createCSSRules_generate, Hg.
Qed.

(** C9 (as amended).  In a cycle that detects no change [onResize] is not
    called.  In a cycle that detects a change and completes, [onResize]
    is called exactly once, with the viewport size just sampled and
    stored.  In a cycle that ends with an exception of the program's own
    (rule generation or publication threw, or [onResize] is not a
    function) no call is made; the only other exception is the one
    [onResize] itself throws, after having been called, once, with the
    viewport size just sampled. *)
Theorem C9_callback (w : World) :
  (fst (viewportHasChanged w) = Normal false ->
   fst (viewportObserver w) = Normal tt
   /\ calls (host (snd (viewportObserver w))) = calls (host w))
  /\ (fst (viewportHasChanged w) = Normal true ->
      fst (viewportObserver w) = Normal tt ->
      exists cb,
        onResize (options (vunit w)) = VFunction cb
        /\ calls (host (snd (viewportObserver w)))
           = (calls (host w)
              ++ [(cb, {| height := clientHeight (host w);
                          width := clientWidth (host w) |})])%list
        /\ viewportSize (vunit (snd (viewportObserver w)))
           = {| height := clientHeight (host w); width := clientWidth (host w) |})
  /\ (forall e,
        fst (viewportObserver w) = Throw e ->
        e <> Thrown ->
        calls (host (snd (viewportObserver w))) = calls (host w))
  /\ (fst (viewportObserver w) = Throw Thrown ->
      exists cb,
        onResize (options (vunit w)) = VFunction cb
        /\ throws cb {| height := clientHeight (host w);
                        width := clientWidth (host w) |} = true
        /\ calls (host (snd (viewportObserver w)))
           = (calls (host w)
              ++ [(cb, {| height := clientHeight (host w);
                          width := clientWidth (host w) |})])%list).
Proof.
  pose proof (viewportObserver_outcome w) as Ho.
  split; [|split; [|split]].
  - intros Hd%viewportHasChanged_differs.
    now rewrite (viewportObserver_unchanged w Hd).
  - intros Hd%viewportHasChanged_differs Hdone. rewrite Hdone in Ho.
    inversion Ho as [Hu | | | | CSSRules d cb _ Hg Hp Hcb Hret Hw | ];
      [congruence|].
    exists cb. repeat split; assumption || reflexivity.
  - intros e He Hown. rewrite He in Ho.
    inversion Ho; subst; try reflexivity. now contradiction Hown.
  - intros He. rewrite He in Ho.
    inversion Ho as [ | e Hd Hg He' Hw | CSSRules e Hd Hg Hp He' Hw | |
                    | CSSRules d cb Hd Hg Hp Hcb Hthrows Hw].
    + now pose proof (generate_throws _ _ _ Hg).
    + now pose proof (publish_throws _ _ _ _ Hp).
    + exists cb. repeat split; assumption.
Qed.

Lemma C9_callback_witness :
  exists cb,
    onResize (options (vunit (fresh (Some map_and_onResize)
                                (browser empty_document viewport_1000_500))))
    = VFunction cb
    /\ calls (host (snd (viewportObserver
                           (fresh (Some map_and_onResize)
                              (browser empty_document viewport_1000_500)))))
       = [(cb, viewport_1000_500)].
Proof.
  destruct (C9_callback (fresh (Some map_and_onResize)
                           (browser empty_document viewport_1000_500)))
    as (_ & Hchanged & _).
  destruct Hchanged as (cb & Hcb & Hcalls & _);
    [reflexivity | vm_compute; reflexivity |].
  exists cb. exact (conj Hcb Hcalls).
Defined.

(** C9 as stated fails: with no rule map configured, the first cycle
    detects a change but ends with the TypeError of rule generation, and
    [onResize] is never called. *)
Lemma C9_counterexample :
  fst (viewportHasChanged
         (fresh (Some only_onResize) (browser empty_document viewport_1000_500)))
  = Normal true
  /\ fst (viewportObserver
            (fresh (Some only_onResize) (browser empty_document viewport_1000_500)))
     = Throw TypeError
  /\ calls (host (snd (viewportObserver
                         (fresh (Some only_onResize)
                            (browser empty_document viewport_1000_500)))))
     = [].
Proof. repeat split. Qed.

(** C10.  Every falsy option value is replaced by its default, an absent
    one included: a falsy [stylesheetId] (the empty string, say) gives
    ["v-unit-stylesheet"], a falsy [viewportObserverInterval] (0, say)
    gives 100, a falsy [CSSMap] gives [null] and a falsy [onResize] the
    no-op function; a truthy value is kept.  The instance is configured
    with the options so resolved. *)
Theorem C10_falsy_options :
  (forall opts : Options,
     (ToBoolean (stylesheetId opts) = false ->
      stylesheetId (resolve_options (Some opts)) = VString "v-unit-stylesheet")
     /\ (ToBoolean (viewportObserverInterval opts) = false ->
         viewportObserverInterval (resolve_options (Some opts)) = VNumber 100%float)
     /\ (ToBoolean (CSSMap opts) = false ->
         CSSMap (resolve_options (Some opts)) = VNull)
     /\ (ToBoolean (onResize opts) = false ->
         onResize (resolve_options (Some opts)) = VFunction NoOp)
     /\ (ToBoolean (stylesheetId opts) = true ->
         stylesheetId (resolve_options (Some opts)) = stylesheetId opts)
     /\ (ToBoolean (viewportObserverInterval opts) = true ->
         viewportObserverInterval (resolve_options (Some opts))
         = viewportObserverInterval opts)
     /\ (ToBoolean (CSSMap opts) = true ->
         CSSMap (resolve_options (Some opts)) = CSSMap opts)
     /\ (ToBoolean (onResize opts) = true ->
         onResize (resolve_options (Some opts)) = onResize opts))
  /\ ToBoolean (VNumber 0%float) = false
  /\ ToBoolean (VString "") = false
  /\ resolve_options None
     = {| stylesheetId := VString "v-unit-stylesheet";
          viewportObserverInterval := VNumber 100%float;
          CSSMap := VNull;
          onResize := VFunction NoOp |}
  /\ (forall (argument : option Options) (h : Host) (instance : Instance),
        this (vUnit argument h) = Some instance ->
        options instance = resolve_options argument).
Proof.
  split; [|split; [reflexivity|split; [reflexivity|split; [reflexivity|]]]].
  - intros opts. unfold resolve_options, or_else. cbn.
    repeat split; intros ->; reflexivity.
  - intros argument h instance. unfold vUnit.
    destruct (window h) as [|win]; [discriminate|].
    destruct (ToBoolean win); cbn [negb]; [|discriminate].
    destruct (document h) as [|doc]; [discriminate|].
    destruct (ToBoolean doc); cbn [negb]; [|discriminate].
    pose proof (viewportObserver_outcome
                  {| vunit := initial argument; host := h |}) as Ho.
    apply cycle_outcome_options in Ho as [Hopt _].
    destruct (viewportObserver {| vunit := initial argument; host := h |})
      as [[u|e] w']; cbn; intros [= <-]; exact Hopt.
Qed.

Lemma C10_falsy_options_witness :
  resolve_options (Some falsy_options) = resolve_options None.
Proof.
  destruct (proj1 C10_falsy_options falsy_options) as (H1 & H2 & H3 & H4 & _).
  specialize (H1 eq_refl). specialize (H2 eq_refl).
  specialize (H3 eq_refl). specialize (H4 eq_refl).
  destruct (resolve_options (Some falsy_options)); cbn in *.
  now subst.
Defined.

(* ===================================================================== *)
(** * Further properties of the source *)
(* ===================================================================== *)

(** ** Lists and the document *)

Lemma find_index_filter_nil {A : Type} (f : A -> bool) (l : list A) :
  filter f l = [] -> find_index f l = None.
Proof.
  induction l as [|a l IH]; simpl; [reflexivity|].
  destruct (f a); [discriminate|]. intros H. now rewrite (IH H).
Qed.

Lemma find_index_app_last {A : Type} (f : A -> bool) (l : list A) (e : A) :
  filter f l = [] -> f e = true -> find_index f (l ++ [e]) = Some (List.length l).
Proof.
  intros Hl He. induction l as [|a l IH]; simpl in *; [now rewrite He|].
  destruct (f a); [discriminate|]. now rewrite (IH Hl).
Qed.

Lemma remove_nth_app_last {A : Type} (l : list A) (e : A) :
  remove_nth (List.length l) (l ++ [e]) = l.
Proof. induction l as [|a l IH]; simpl; [reflexivity | now rewrite IH]. Qed.

(** Removing the first element that satisfies [f] removes none of the
    others. *)
Lemma remove_nth_others {A : Type} (f : A -> bool) (l : list A) (i : nat) :
  find_index f l = Some i ->
  filter (fun a => negb (f a)) (remove_nth i l) = filter (fun a => negb (f a)) l.
Proof.
  revert i. induction l as [|a l IH]; simpl; intros i; [discriminate|].
  destruct (f a) eqn:Hfa.
  - intros [= <-]. reflexivity.
  - destruct (find_index f l) as [j|]; [|discriminate].
    intros [= <-]. cbn [remove_nth filter]. rewrite Hfa. cbn [negb].
    now rewrite (IH j eq_refl).
Qed.

Lemma concat_app_last (l : list string) (x : string) :
  String.concat "" (l ++ [x]) = String.concat "" l ++ x.
Proof.
  induction l as [|a l IH]; [reflexivity|].
  destruct l as [|b l]; [reflexivity|].
  change (String.concat "" ((a :: b :: l) ++ [x]))
    with (a ++ "" ++ String.concat "" ((b :: l) ++ [x])).
  rewrite IH.
  change (String.concat "" (a :: b :: l)) with (a ++ "" ++ String.concat "" (b :: l)).
  cbn [append]. now rewrite append_assoc.
Qed.

Lemma publish_body (d d' : Document) (id : string) (e : Element) :
  publish d id e = Normal d' -> body d' = body d.
Proof.
  unfold publish.
  destruct (getElementById d id) as [[i|i]|]; cbn; try discriminate;
    now intros [= <-].
Qed.

Lemma filter_find_index {A : Type} (f : A -> bool) (l : list A) :
  filter f l <> [] -> exists i, find_index f l = Some i.
Proof.
  intros Hne. destruct (find_index f l) as [i|] eqn:Hfind; [now exists i|].
  now rewrite (find_index_None f l Hfind) in Hne.
Qed.

(** Publishing a second element over a first gives the document that
    publishing the second alone gives. *)
Lemma publish_twice (d d1 : Document) (id : string) (e1 e2 : Element) :
  id <> "" ->
  has_id id e1 = true ->
  (List.length (bearing id d) <= 1)%nat ->
  publish d id e1 = Normal d1 ->
  publish d1 id e2 = publish d id e2
  /\ exists d2, publish d id e2 = Normal d2
                /\ List.length (head d2) = List.length (head d1).
Proof.
  intros Hid He1 Hone. unfold publish, getElementById.
  destruct (String.eqb_spec id "") as [|_]; [contradiction|].
  unfold bearing in Hone. rewrite filter_app, List.length_app in Hone.
  destruct (find_index (has_id id) (head d)) as [i|] eqn:Hhead.
  - cbn [removeChild]. intros [= <-]. cbn [appendChild head body].
    pose proof (find_index_Some _ _ _ Hhead) as Hrem.
    assert (Hnil : filter (has_id id) (remove_nth i (head d)) = [])
      by (apply length_zero_nil; lia).
    rewrite (find_index_app_last _ _ e1 Hnil He1).
    cbn [removeChild appendChild head body].
    rewrite remove_nth_app_last. split; [reflexivity|].
    eexists. split; [reflexivity|]. cbn [head appendChild].
    now rewrite !List.length_app.
  - destruct (find_index (has_id id) (body d)) as [j|] eqn:Hbody;
      cbn [option_map removeChild]; [discriminate|].
    intros [= <-]. cbn [appendChild head body].
    rewrite (find_index_app_last _ _ e1 (find_index_None _ _ Hhead) He1).
    cbn [removeChild appendChild head body]. rewrite remove_nth_app_last.
    split; [reflexivity|].
    eexists. split; [reflexivity|]. cbn [head appendChild].
    now rewrite !List.length_app.
Qed.

(** ** Building and publishing the stylesheet *)

(** X1.  [appendCSSRulesToStylesheet] changes nothing but the style text
    of the element it is given, and nothing of the world.  On a host that
    exposes [styleSheet] the text is replaced by the rules; otherwise the
    rules are added as a further text node, after the text the element
    already holds. *)
Theorem appendCSSRulesToStylesheet_text (CSSRules : string) (stylesheet : Element)
    (w : World) :
  exists stylesheet',
    appendCSSRulesToStylesheet CSSRules stylesheet w = (Normal stylesheet', w)
    /\ tagName stylesheet' = tagName stylesheet
    /\ attributes stylesheet' = attributes stylesheet
    /\ cssText stylesheet'
       = match styleSheet stylesheet with
         | Some _ => CSSRules
         | None => cssText stylesheet ++ CSSRules
         end.
Proof.
  unfold appendCSSRulesToStylesheet, cssText, ret.
  destruct (styleSheet stylesheet) as [old|] eqn:Hs; eexists;
    (split; [reflexivity|]); cbn; repeat split.
  apply concat_app_last.
Qed.

(** X2.  The element that [createStylesheet] and
    [appendCSSRulesToStylesheet] build is a [style] element outside the
    document (the world is unchanged) that carries [rel], [type], [media]
    and the configured identifier, whatever value the [stylesheetId]
    option has, so that [getElementById] will be asked for the very
    identifier it bears; its style text is exactly the rules, on both
    kinds of host. *)
Theorem build_stylesheet_fresh (CSSRules : string) (w : World) :
  exists stylesheet,
    build_stylesheet CSSRules w = (Normal stylesheet, w)
    /\ tagName stylesheet = "style"
    /\ getAttribute stylesheet "rel" = Some "stylesheet"
    /\ getAttribute stylesheet "type" = Some "text/css"
    /\ getAttribute stylesheet "media" = Some "screen"
    /\ getAttribute stylesheet "id"
       = Some (ToString (stylesheetId (options (vunit w))))
    /\ has_id (ToString (stylesheetId (options (vunit w)))) stylesheet = true
    /\ cssText stylesheet = CSSRules.
Proof.
  exists (new_stylesheet w CSSRules). split.
  - unfold build_stylesheet, createStylesheet, appendCSSRulesToStylesheet,
      new_stylesheet, configured_id, bind, get, ret.
    now destruct (legacy (host w)).
  - repeat split; try reflexivity.
    + apply (new_stylesheet_has_id w CSSRules).
    + apply new_stylesheet_cssText.
Qed.

(** X3.  A completed [appendStylesheetOnHead] never touches another node:
    the elements of the head that do not bear the identifier are kept, in
    order, and so is everything outside the head; the new stylesheet
    becomes the last child of the head; the number of elements bearing
    the identifier stays what it was, or becomes one if there was none
    (an earlier duplicate is never cleaned up); the instance and the call
    log are unchanged. *)
Theorem appendStylesheetOnHead_keeps_others (stylesheet : Element) (w w' : World) :
  configured_id w <> "" ->
  has_id (configured_id w) stylesheet = true ->
  appendStylesheetOnHead stylesheet w = (Normal tt, w') ->
  others (configured_id w) (head (dom (host w')))
  = others (configured_id w) (head (dom (host w)))
  /\ body (dom (host w')) = body (dom (host w))
  /\ (exists before, head (dom (host w')) = (before ++ [stylesheet])%list)
  /\ List.length (bearing (configured_id w) (dom (host w')))
     = Nat.max 1 (List.length (bearing (configured_id w) (dom (host w))))
  /\ vunit w' = vunit w
  /\ calls (host w') = calls (host w).
Proof.
  intros Hid Hstyle. rewrite appendStylesheetOnHead_run.
  unfold publish, getElementById, bearing, others.
  destruct (String.eqb_spec (configured_id w) "") as [|_]; [contradiction|].
  set (id := configured_id w) in *.
  assert (Hnot : negb (has_id id stylesheet) = false) by (now rewrite Hstyle).
  destruct (find_index (has_id id) (head (dom (host w)))) as [i|] eqn:Hhead.
  - cbn [removeChild]. intros [= <-]. cbn [host dom with_dom appendChild head body].
    rewrite !filter_app. cbn [filter]. rewrite Hnot, Hstyle, app_nil_r.
    rewrite (remove_nth_others _ _ _ Hhead).
    pose proof (find_index_Some _ _ _ Hhead) as Hrem.
    repeat split; try reflexivity.
    + now exists (remove_nth i (head (dom (host w)))).
    + rewrite !List.length_app. cbn [List.length]. lia.
  - destruct (find_index (has_id id) (body (dom (host w)))) as [j|] eqn:Hbody;
      cbn [option_map removeChild]; [discriminate|].
    intros [= <-]. cbn [host dom with_dom appendChild head body].
    rewrite !filter_app. cbn [filter]. rewrite Hnot, Hstyle, app_nil_r.
    rewrite (find_index_None _ _ Hhead), (find_index_None _ _ Hbody).
    repeat split; try reflexivity.
    now exists (head (dom (host w))).
Qed.

Lemma appendStylesheetOnHead_keeps_others_witness :
  others "v-unit-stylesheet"
    (head (dom (host (snd (appendStylesheetOnHead
                             (element_with_id "style" "v-unit-stylesheet")
                             (fresh None (browser document_with_neighbours
                                            viewport_1000_500)))))))
  = [element_with_id "meta" "m"; element_with_id "title" "t"].
Proof.
  exact (proj1 (appendStylesheetOnHead_keeps_others
                  (element_with_id "style" "v-unit-stylesheet")
                  (fresh None (browser document_with_neighbours viewport_1000_500))
                  _
                  ltac:(discriminate) eq_refl eq_refl)).
Defined.

(** X4.  When the only element that bears the identifier is not a child of
    the head, [appendStylesheetOnHead] throws NotFoundError and leaves the
    world as it was: nothing is removed and the new stylesheet is not
    appended.  A cycle that detected a change then ends with that
    exception, after storing the sample, with nothing published and no
    callback called. *)
Theorem appendStylesheetOnHead_outside_head (stylesheet : Element) (w : World) :
  configured_id w <> "" ->
  filter (has_id (configured_id w)) (head (dom (host w))) = [] ->
  filter (has_id (configured_id w)) (body (dom (host w))) <> [] ->
  appendStylesheetOnHead stylesheet w = (Throw NotFoundError, w)
  /\ (forall CSSRules,
        fst (viewportHasChanged w) = Normal true ->
        createCSSRules (sampled w) = (Normal CSSRules, sampled w) ->
        viewportObserver w = (Throw NotFoundError, sampled w)).
Proof.
  intros Hid Hhead Hbody.
  assert (Hpub : forall e, publish (dom (host w)) (configured_id w) e
                           = Throw NotFoundError).
  { intros e. unfold publish, getElementById.
    destruct (String.eqb_spec (configured_id w) "") as [|_]; [contradiction|].
    rewrite (find_index_filter_nil _ _ Hhead).
    now destruct (filter_find_index _ _ Hbody) as [j ->]. }
  split.
  - now rewrite appendStylesheetOnHead_run, Hpub.
  - intros CSSRules Hd%viewportHasChanged_differs Hgen.
    rewrite createCSSRules_generate in Hgen. injection Hgen as Hgen.
    rewrite (viewportObserver_changed w CSSRules Hd Hgen).
    now rewrite Hpub.
Qed.

Lemma appendStylesheetOnHead_outside_head_witness :
  viewportObserver
    (fresh (Some (only_CSSMap (VObject map_vw)))
       (browser document_with_body_node viewport_1000_500))
  = (Throw NotFoundError,
     sampled (fresh (Some (only_CSSMap (VObject map_vw)))
                (browser document_with_body_node viewport_1000_500))).
Proof.
  eapply (proj2 (appendStylesheetOnHead_outside_head
                   (element_with_id "style" "v-unit-stylesheet")
                   (fresh (Some (only_CSSMap (VObject map_vw)))
                      (browser document_with_body_node viewport_1000_500))
                   ltac:(discriminate) eq_refl ltac:(discriminate))).
  - reflexivity.
  - vm_compute. reflexivity.
Defined.

(** X5.  The last publish wins: provided at most one element bore the
    identifier to begin with, publishing a second stylesheet after a first
    completes and leaves the document that publishing the second alone
    would have left; the head does not grow. *)
Theorem appendStylesheetOnHead_twice (first second : Element) (w w1 : World) :
  configured_id w <> "" ->
  has_id (configured_id w) first = true ->
  (List.length (bearing (configured_id w) (dom (host w))) <= 1)%nat ->
  appendStylesheetOnHead first w = (Normal tt, w1) ->
  exists w2 w2',
    appendStylesheetOnHead second w1 = (Normal tt, w2)
    /\ appendStylesheetOnHead second w = (Normal tt, w2')
    /\ dom (host w2) = dom (host w2')
    /\ List.length (head (dom (host w2))) = List.length (head (dom (host w1))).
Proof.
  intros Hid Hfirst Hone. rewrite appendStylesheetOnHead_run.
  destruct (publish (dom (host w)) (configured_id w) first) as [d1|e] eqn:Hp1;
    [|discriminate].
  intros [= <-].
  destruct (publish_twice _ _ _ _ second Hid Hfirst Hone Hp1)
    as (Hsame & d2 & Hp2 & Hlen).
  rewrite !appendStylesheetOnHead_run.
  change (configured_id {| vunit := vunit w; host := with_dom d1 (host w) |})
    with (configured_id w).
  cbn [host dom with_dom]. rewrite Hsame, Hp2.
  do 2 eexists. repeat split. exact Hlen.
Qed.

Lemma appendStylesheetOnHead_twice_witness :
  exists w2 w2',
    appendStylesheetOnHead (element_with_id "style" "v-unit-stylesheet")
      (snd (appendStylesheetOnHead (element_with_id "style" "v-unit-stylesheet")
              (fresh None (browser empty_document viewport_1000_500))))
    = (Normal tt, w2)
    /\ appendStylesheetOnHead (element_with_id "style" "v-unit-stylesheet")
         (fresh None (browser empty_document viewport_1000_500))
       = (Normal tt, w2')
    /\ dom (host w2) = dom (host w2').
Proof.
  destruct (appendStylesheetOnHead_twice
              (element_with_id "style" "v-unit-stylesheet")
              (element_with_id "style" "v-unit-stylesheet")
              (fresh None (browser empty_document viewport_1000_500))
              _
              ltac:(discriminate) eq_refl ltac:(cbn; lia) eq_refl)
    as (w2 & w2' & H1 & H2 & H3 & _).
  exists w2, w2'. exact (conj H1 (conj H2 H3)).
Defined.

(** ** What cycles keep *)

Lemma publish_others (d d' : Document) (id : string) (e : Element) :
  has_id id e = true ->
  publish d id e = Normal d' ->
  others id (head d') = others id (head d).
Proof.
  intros He. unfold publish, getElementById, others.
  assert (Hnot : negb (has_id id e) = false) by (now rewrite He).
  destruct (String.eqb id "").
  { intros [= <-]. cbn [appendChild head]. rewrite filter_app. cbn [filter].
    now rewrite Hnot, app_nil_r. }
  destruct (find_index (has_id id) (head d)) as [i|] eqn:Hhead.
  - cbn [removeChild]. intros [= <-]. cbn [appendChild head].
    rewrite filter_app. cbn [filter]. rewrite Hnot, app_nil_r.
    exact (remove_nth_others _ _ _ Hhead).
  - destruct (find_index (has_id id) (body d)); cbn [option_map removeChild];
      [discriminate|].
    intros [= <-]. cbn [appendChild head]. rewrite filter_app. cbn [filter].
    now rewrite Hnot, app_nil_r.
Qed.

Lemma last_cons_default {A : Type} (l : list A) (a d : A) :
  List.last l a = List.last (a :: l) d.
Proof.
  destruct l as [|b l]; [reflexivity|].
  change (List.last (a :: b :: l) d) with (List.last (b :: l) d).
  revert b. induction l as [|c l IH]; intros b; [reflexivity|].
  exact (IH c).
Qed.

(** A cycle leaves the globals, the client box, the kind of host and the
    timers alone. *)
Lemma cycle_outcome_host (w w' : World) (r : completion unit) :
  cycle_outcome w r w' ->
  window (host w') = window (host w)
  /\ document (host w') = document (host w)
  /\ intervals (host w') = intervals (host w)
  /\ clientHeight (host w') = clientHeight (host w)
  /\ clientWidth (host w') = clientWidth (host w).
Proof. intros H; destruct H; repeat split. Qed.

Lemma cycle_outcome_others (w w' : World) (r : completion unit) :
  cycle_outcome w r w' ->
  body (dom (host w')) = body (dom (host w))
  /\ others (configured_id w) (head (dom (host w')))
     = others (configured_id w) (head (dom (host w))).
Proof.
  intros H; destruct H; cbn [host sampled dom with_dom with_call];
    try (split; reflexivity).
  all: match goal with
       | Hp : publish _ _ _ = Normal _ |- _ =>
           split;
           [exact (publish_body _ _ _ _ Hp)
           |exact (publish_others _ _ _ _ (new_stylesheet_has_id w CSSRules) Hp)]
       end.
Qed.

(** A cycle calls nothing, or calls the configured [onResize] once with
    the size it has just stored. *)
Lemma cycle_outcome_calls (w w' : World) (r : completion unit) :
  cycle_outcome w r w' ->
  calls (host w') = calls (host w)
  \/ exists cb,
       onResize (options (vunit w)) = VFunction cb
       /\ calls (host w')
          = (calls (host w) ++ [(cb, viewportSize (vunit (sampled w)))])%list.
Proof.
  intros H; destruct H; cbn [host sampled dom with_dom with_call calls];
    try (now left).
  all: right; now exists cb.
Qed.

(** A cycle at the stored size does nothing. *)
Lemma cycle_same_size (sample : ViewportSize) (w : World) :
  viewportSize (vunit w) = sample ->
  fst (cycle sample w) = Normal tt
  /\ dom (host (snd (cycle sample w))) = dom (host w)
  /\ calls (host (snd (cycle sample w))) = calls (host w)
  /\ viewportSize (vunit (snd (cycle sample w))) = sample.
Proof.
  intros Hstored. unfold cycle.
  rewrite (viewportObserver_unchanged (resize sample w)).
  - destruct sample. now cbn.
  - apply differs_false. cbn. now rewrite Hstored.
Qed.

(** X6.  Whatever the samples and however the cycles end, a run of cycles
    keeps the options, the timers and the globals as they were, never
    touches an element outside the head nor a child of the head that does
    not bear the identifier, and leaves the last sample as the stored
    viewport size. *)
Theorem cycles_keep (samples : list ViewportSize) (w : World) :
  options (vunit (cycles samples w)) = options (vunit w)
  /\ intervals (host (cycles samples w)) = intervals (host w)
  /\ window (host (cycles samples w)) = window (host w)
  /\ document (host (cycles samples w)) = document (host w)
  /\ body (dom (host (cycles samples w))) = body (dom (host w))
  /\ others (configured_id w) (head (dom (host (cycles samples w))))
     = others (configured_id w) (head (dom (host w)))
  /\ viewportSize (vunit (cycles samples w))
     = List.last samples (viewportSize (vunit w)).
Proof.
  revert w. induction samples as [|sample rest IH]; intros w.
  - now cbn.
  - cbn [cycles].
    pose proof (cycle_outcome_of sample w) as Ho.
    destruct (cycle_outcome_options _ _ _ Ho) as [Hopt _].
    destruct (cycle_outcome_host _ _ _ Ho) as (Hwin & Hdoc & Hint & _).
    destruct (cycle_outcome_others _ _ _ Ho) as (Hbody & Hothers).
    pose proof (cycle_outcome_viewportSize _ _ _ Ho) as Hsize.
    assert (Hsame : configured_id (snd (cycle sample w)) = configured_id w)
      by (unfold configured_id; now rewrite Hopt).
    destruct (IH (snd (cycle sample w)))
      as (IH1 & IH2 & IH3 & IH4 & IH5 & IH6 & IH7).
    rewrite Hsame in IH6.
    change (configured_id (resize sample w)) with (configured_id w) in Hothers.
    cbn [resize host vunit with_client intervals window document dom
         clientHeight clientWidth] in *.
    repeat split; try congruence.
    rewrite IH7, Hsize. destruct sample as [hs ws]. cbn [height width].
    apply last_cons_default.
Qed.

(** X7.  A cycle is not retried.  Once a cycle has run at some viewport
    size, whether it completed or threw, any number of further cycles at
    that same size complete without publishing and without calling back:
    the document and the call log stay as the first cycle left them. *)
Theorem cycle_not_retried (sample : ViewportSize) (w : World) (n : nat) :
  fst (cycle sample (snd (cycle sample w))) = Normal tt
  /\ dom (host (cycles (repeat sample n) (snd (cycle sample w))))
     = dom (host (snd (cycle sample w)))
  /\ calls (host (cycles (repeat sample n) (snd (cycle sample w))))
     = calls (host (snd (cycle sample w)))
  /\ viewportSize (vunit (cycles (repeat sample n) (snd (cycle sample w))))
     = sample.
Proof.
  assert (Hstored : viewportSize (vunit (snd (cycle sample w))) = sample).
  { rewrite (cycle_outcome_viewportSize _ _ _ (cycle_outcome_of sample w)).
    now destruct sample. }
  split; [exact (proj1 (cycle_same_size sample _ Hstored))|].
  revert Hstored. generalize (snd (cycle sample w)) as w1.
  induction n as [|n IH]; intros w1 Hstored; [now cbn|].
  cbn [repeat cycles].
  destruct (cycle_same_size sample w1 Hstored) as (_ & Hdom & Hcalls & Hsize).
  destruct (IH _ Hsize) as (IH1 & IH2 & IH3).
  repeat split; congruence.
Qed.

(** X8.  The call log only grows, by at most one call per cycle, and
    every call added is a call of the configured [onResize] with one of
    the sampled viewport sizes. *)
Theorem cycles_calls (samples : list ViewportSize) (w : World) :
  exists added,
    calls (host (cycles samples w)) = (calls (host w) ++ added)%list
    /\ (List.length added <= List.length samples)%nat
    /\ Forall (fun c => onResize (options (vunit w)) = VFunction (fst c)
                        /\ In (snd c) samples)
         added.
Proof.
  revert w. induction samples as [|sample rest IH]; intros w.
  - exists []. cbn. rewrite app_nil_r. repeat split; auto.
  - cbn [cycles].
    pose proof (cycle_outcome_of sample w) as Ho.
    destruct (cycle_outcome_options _ _ _ Ho) as [Hopt _].
    destruct (IH (snd (cycle sample w))) as (added & Hcalls & Hlen & Hall).
    rewrite Hopt in Hall.
    assert (Hrest : Forall (fun c => onResize (options (vunit w)) = VFunction (fst c)
                                     /\ In (snd c) (sample :: rest)) added).
    { eapply Forall_impl; [|exact Hall]. intros c [H1 H2]. split; [exact H1|].
      now right. }
    destruct (cycle_outcome_calls _ _ _ Ho) as [Hsame | (cb & Hcb & Hone)].
    + exists added. rewrite Hcalls, Hsame. cbn [resize host with_client calls].
      repeat split; [cbn; lia | exact Hrest].
    + exists ((cb, sample) :: added). rewrite Hcalls, Hone.
      rewrite sampled_resize. cbn [resize host vunit with_client calls].
      rewrite <- app_assoc. repeat split; [cbn; lia|].
      constructor; [|exact Hrest]. split; [exact Hcb | now left].
Qed.

(** ** The constructor *)

Lemma generate_object (viewport : ViewportSize) (m : RuleMap) :
  generate viewport (VObject m) = Normal (join (rules viewport m)).
Proof.
  unfold generate.
  match goal with
  | |- fst (createCSSRules ?w) = _ => now rewrite (createCSSRules_object w m eq_refl)
  end.
Qed.

(** With no element bearing the identifier, publication is a plain
    append to the head. *)
Lemma publish_append (d : Document) (id : string) (e : Element) :
  bearing id d = [] -> publish d id e = Normal (appendChild d e).
Proof.
  unfold bearing. rewrite filter_app. intros [Hhead Hbody]%app_eq_nil.
  unfold publish, getElementById. destruct (String.eqb id ""); [reflexivity|].
  now rewrite (find_index_filter_nil _ _ Hhead), (find_index_filter_nil _ _ Hbody).
Qed.

(** The first cycle of the constructor on a document without the
    identifier, once rules are generated. *)
Lemma first_cycle_publishes (argument : option Options) (h : Host) (m : RuleMap) :
  CSSMap (resolve_options argument) = VObject m ->
  bearing (ToString (stylesheetId (resolve_options argument))) (dom h) = [] ->
  clientHeight h <> 0 \/ clientWidth h <> 0 ->
  viewportObserver (fresh argument h)
  = match onResize (resolve_options argument) with
    | VFunction cb =>
        (if throws cb {| height := clientHeight h; width := clientWidth h |}
         then Throw Thrown else Normal tt,
         {| vunit := vunit (sampled (fresh argument h));
            host := with_call cb
                      {| height := clientHeight h; width := clientWidth h |}
                      (with_dom
                         (appendChild (dom h)
                            (new_stylesheet (fresh argument h)
                               (join (rules {| height := clientHeight h;
                                               width := clientWidth h |} m))))
                         h) |})
    | _ =>
        (Throw TypeError,
         {| vunit := vunit (sampled (fresh argument h));
            host := with_dom
                      (appendChild (dom h)
                         (new_stylesheet (fresh argument h)
                            (join (rules {| height := clientHeight h;
                                            width := clientWidth h |} m))))
                      h |})
    end.
Proof.
  intros Hmap Hnone Hsize.
  rewrite (viewportObserver_changed (fresh argument h)
             (join (rules {| height := clientHeight h; width := clientWidth h |} m))).
  - cbn [fresh host vunit initial options sampled viewportSize].
    unfold configured_id. cbn [fresh vunit initial options].
    now rewrite (publish_append _ _ _ Hnone).
  - now apply (differs_true (fresh argument h)).
  - cbn [fresh host vunit initial options sampled viewportSize].
    rewrite Hmap. apply generate_object.
Qed.

Lemma vUnit_declined (argument : option Options) (h : Host) :
  available h = false -> after (vUnit argument h) = h.
Proof.
  unfold available, vUnit.
  destruct (window h) as [|win]; [reflexivity|].
  destruct (ToBoolean win); cbn [negb]; [|reflexivity].
  destruct (document h) as [|doc]; [reflexivity|].
  cbn [andb]. now intros ->.
Qed.

Lemma or_else_truthy (v default : value) :
  ToBoolean default = true -> ToBoolean (or_else v default) = true.
Proof. intros Hd. unfold or_else. now destruct (ToBoolean v) eqn:Hv. Qed.

(** X9.  The start.  In a browser, with a rule map and a function as
    [onResize] configured, a viewport that is not 0x0 and no element yet
    bearing the identifier, the constructor sets the options and stores
    the viewport size, appends one style element with the generated rules
    as the last child of the head, touches nothing outside the head, and
    calls [onResize] exactly once with the viewport size.  If [onResize]
    returns, the constructor returns normally and arms exactly one timer
    with the configured interval; if [onResize] throws, the constructor
    throws what it threw and arms no timer. *)
Theorem vUnit_starts (argument : option Options) (h : Host) (m : RuleMap)
    (cb : callback) :
  available h = true ->
  CSSMap (resolve_options argument) = VObject m ->
  onResize (resolve_options argument) = VFunction cb ->
  bearing (ToString (stylesheetId (resolve_options argument))) (dom h) = [] ->
  clientHeight h <> 0 \/ clientWidth h <> 0 ->
  completed (vUnit argument h)
  = (if throws cb {| height := clientHeight h; width := clientWidth h |}
     then Throw Thrown else Normal VUndefined)
  /\ this (vUnit argument h)
     = Some {| options := resolve_options argument;
               viewportSize := {| height := clientHeight h;
                                  width := clientWidth h |} |}
  /\ head (dom (after (vUnit argument h)))
     = (head (dom h)
        ++ [new_stylesheet (fresh argument h)
              (join (rules {| height := clientHeight h; width := clientWidth h |}
                       m))])%list
  /\ body (dom (after (vUnit argument h))) = body (dom h)
  /\ calls (after (vUnit argument h))
     = (calls h ++ [(cb, {| height := clientHeight h; width := clientWidth h |})])%list
  /\ intervals (after (vUnit argument h))
     = (if throws cb {| height := clientHeight h; width := clientWidth h |}
        then intervals h
        else (intervals h
              ++ [viewportObserverInterval (resolve_options argument)])%list).
Proof.
  intros Havail Hmap Hcb Hnone Hsize.
  rewrite (vUnit_started argument h Havail).
  change {| vunit := initial argument; host := h |} with (fresh argument h).
  rewrite (first_cycle_publishes argument h m Hmap Hnone Hsize), Hcb.
  destruct (throws cb {| height := clientHeight h; width := clientWidth h |});
    cbn; repeat split.
Qed.

Lemma vUnit_starts_witness :
  (completed (vUnit (Some map_and_onResize) (browser empty_document viewport_1000_500))
   = Normal VUndefined
   /\ calls (after (vUnit (Some map_and_onResize)
                      (browser empty_document viewport_1000_500)))
      = [(UserFn "report", viewport_1000_500)]
   /\ intervals (after (vUnit (Some map_and_onResize)
                          (browser empty_document viewport_1000_500)))
      = [VNumber 100%float])
  /\ (completed (vUnit (Some map_and_throwing_onResize)
                   (browser empty_document viewport_800_400))
      = Throw Thrown
      /\ calls (after (vUnit (Some map_and_throwing_onResize)
                         (browser empty_document viewport_800_400)))
         = [(narrow, viewport_800_400)]
      /\ intervals (after (vUnit (Some map_and_throwing_onResize)
                             (browser empty_document viewport_800_400)))
         = []).
Proof.
  destruct (vUnit_starts (Some map_and_onResize)
              (browser empty_document viewport_1000_500) map_vw (UserFn "report")
              eq_refl eq_refl eq_refl eq_refl ltac:(left; discriminate))
    as (Hdone & _ & _ & _ & Hcalls & Htimer).
  destruct (vUnit_starts (Some map_and_throwing_onResize)
              (browser empty_document viewport_800_400) map_vw narrow
              eq_refl eq_refl eq_refl eq_refl ltac:(left; discriminate))
    as (Hthrown & _ & _ & _ & Hcalls' & Htimer').
  exact (conj (conj Hdone (conj Hcalls Htimer))
           (conj Hthrown (conj Hcalls' Htimer'))).
Defined.

(** X10.  The timer.  The constructor arms its timer only after a first
    cycle that completed: if it returns normally past the guard, exactly
    one timer is added, with the configured interval, which is never a
    falsy value (a missing, zero or NaN interval has become 100); if it
    throws, or declines to start, no timer is added, so no later cycle
    will ever run. *)
Theorem vUnit_timer (argument : option Options) (h : Host) :
  ToBoolean (viewportObserverInterval (resolve_options argument)) = true
  /\ (available h = true ->
      completed (vUnit argument h) = Normal VUndefined ->
      intervals (after (vUnit argument h))
      = (intervals h ++ [viewportObserverInterval (resolve_options argument)])%list)
  /\ (forall e,
        completed (vUnit argument h) = Throw e ->
        intervals (after (vUnit argument h)) = intervals h)
  /\ (available h = false ->
      intervals (after (vUnit argument h)) = intervals h).
Proof.
  split; [now apply or_else_truthy|].
  assert (Hdeclined : available h = false ->
                      intervals (after (vUnit argument h)) = intervals h)
    by (intros Hno; now rewrite (vUnit_declined argument h Hno)).
  destruct (available h) eqn:Havail.
  2: { repeat split; auto. discriminate. }
  rewrite (vUnit_started argument h Havail).
  pose proof (viewportObserver_outcome {| vunit := initial argument; host := h |})
    as Ho.
  destruct (cycle_outcome_options _ _ _ Ho) as [Hopt _].
  destruct (cycle_outcome_host _ _ _ Ho) as (_ & _ & Hint & _).
  destruct (viewportObserver {| vunit := initial argument; host := h |})
    as [[u|e0] w']; cbn [fst snd] in *; cbn [completed after setInterval with_interval intervals].
  - split; [|split; [discriminate | discriminate]].
    intros _ _. now rewrite Hopt, Hint.
  - split; [discriminate|]. split; [|discriminate].
    intros e _. exact Hint.
Qed.

Lemma vUnit_timer_witness :
  intervals (after (vUnit None (browser empty_document viewport_1000_500))) = []
  /\ intervals (after (vUnit None host_without_document)) = [].
Proof.
  destruct (vUnit_timer None (browser empty_document viewport_1000_500))
    as (_ & _ & Hthrow & _).
  destruct (vUnit_timer None host_without_document) as (_ & _ & _ & Hno).
  exact (conj (Hthrow TypeError eq_refl) (Hno eq_refl)).
Defined.

(** X11.  An [onResize] option that is truthy but not a function is only
    found out after publication: the first cycle appends the stylesheet
    with the generated rules and then throws a TypeError at the call, so
    the constructor throws, no call is recorded and no timer is armed;
    the rules just published are never refreshed. *)
Theorem onResize_not_a_function (argument : option Options) (h : Host)
    (m : RuleMap) :
  available h = true ->
  CSSMap (resolve_options argument) = VObject m ->
  (forall cb, onResize (resolve_options argument) <> VFunction cb) ->
  bearing (ToString (stylesheetId (resolve_options argument))) (dom h) = [] ->
  clientHeight h <> 0 \/ clientWidth h <> 0 ->
  completed (vUnit argument h) = Throw TypeError
  /\ head (dom (after (vUnit argument h)))
     = (head (dom h)
        ++ [new_stylesheet (fresh argument h)
              (join (rules {| height := clientHeight h; width := clientWidth h |}
                       m))])%list
  /\ calls (after (vUnit argument h)) = calls h
  /\ intervals (after (vUnit argument h)) = intervals h.
Proof.
  intros Havail Hmap Hcb Hnone Hsize.
  rewrite (vUnit_started argument h Havail).
  change {| vunit := initial argument; host := h |} with (fresh argument h).
  rewrite (first_cycle_publishes argument h m Hmap Hnone Hsize).
  destruct (onResize (resolve_options argument)) as [| | | | |cb|] eqn:Hon;
    try (exfalso; exact (Hcb _ eq_refl));
    cbn; repeat split.
Qed.

Lemma onResize_not_a_function_witness :
  completed (vUnit (Some map_and_bad_onResize)
               (browser empty_document viewport_1000_500))
  = Throw TypeError
  /\ intervals (after (vUnit (Some map_and_bad_onResize)
                         (browser empty_document viewport_1000_500)))
     = [].
Proof.
  destruct (onResize_not_a_function (Some map_and_bad_onResize)
              (browser empty_document viewport_1000_500) map_vw
              eq_refl eq_refl ltac:(discriminate) eq_refl ltac:(left; discriminate))
    as (Hthrow & _ & _ & Htimer).
  exact (conj Hthrow Htimer).
Defined.

(** ** The generated rules *)

Lemma flat_map_ext_in {A B : Type} (f g : A -> list B) (l : list A) :
  (forall a, In a l -> f a = g a) -> flat_map f l = flat_map g l.
Proof.
  induction l as [|a l IH]; intros H; [reflexivity|].
  cbn [flat_map]. rewrite (H a (or_introl eq_refl)), IH; [reflexivity|].
  intros b Hb. apply H. now right.
Qed.

Lemma strict_equals_string_eq (v : value) (s : string) :
  strict_equals_string v s = true -> v = VString s.
Proof.
  destruct v; cbn; try discriminate.
  now intros ->%String.eqb_eq.
Qed.

(** The rules of two viewports agree when the axis unit of every entry
    does. *)
Lemma rules_ext (a b : ViewportSize) (m : RuleMap) :
  (forall selector e, In (selector, e) m ->
     axisUnit a (reference e) = axisUnit b (reference e)) ->
  rules a m = rules b m.
Proof.
  intros Hunit. unfold rules. apply flat_map_ext_in. intros selector _.
  destruct (lookup m selector) as [e|] eqn:He; [|reflexivity].
  unfold rules_of_selector. apply map_ext. intros range.
  now rewrite (Hunit selector e (lookup_In _ _ _ He)).
Qed.

(** In a list of blocks of [n] items each, item [j] of block [i] is at
    position [n * i + j]. *)
Lemma nth_error_flat_map {A B : Type} (f : A -> list B) (n : nat) :
  forall (l : list A) (i j : nat) (a : A),
    (forall x, In x l -> List.length (f x) = n) ->
    nth_error l i = Some a ->
    (j < n)%nat ->
    nth_error (flat_map f l) (n * i + j) = nth_error (f a) j.
Proof.
  induction l as [|x l IH]; intros i j a Hlen Hi Hj.
  - now destruct i.
  - cbn [flat_map]. destruct i as [|i].
    + injection Hi as ->. rewrite Nat.mul_0_r, Nat.add_0_l.
      apply nth_error_app1. now rewrite (Hlen a (or_introl eq_refl)).
    + cbn [nth_error] in Hi.
      rewrite nth_error_app2 by (rewrite (Hlen x (or_introl eq_refl)); lia).
      rewrite (Hlen x (or_introl eq_refl)).
      replace (n * S i + j - n)%nat with (n * i + j)%nat by lia.
      apply IH; [|exact Hi | exact Hj].
      intros y Hy. apply Hlen. now right.
Qed.

Lemma nth_error_ranges (j : nat) :
  (j < 100)%nat -> nth_error ranges j = Some (range_at j).
Proof.
  intros Hj. unfold ranges, range_at.
  rewrite nth_error_map, nth_error_seq.
  now rewrite (proj2 (Nat.ltb_lt j 100) Hj).
Qed.

(** X12.  Where a rule is.  On a plain rule map the text lists the rules
    selector by selector in the order of the map's keys, and range by
    range within a selector: line [100 * i + j] is the rule of the
    [i]-th selector for the range [j + 1], with the value
    [axisUnit * (j + 1)]. *)
Theorem rule_position (w : World) (m : RuleMap) (i j : nat) (selector : string)
    (e : RuleMapEntry) :
  CSSMap (options (vunit w)) = VObject m ->
  plain_map m = true ->
  nth_error (map fst m) i = Some selector ->
  lookup m selector = Some e ->
  (j < 100)%nat ->
  exists text,
    createCSSRules w = (Normal text, w)
    /\ nth_error (lines text) (100 * i + j)
       = Some (selector ++ Number_toString (range_at j) ++ "{" ++ property e ++ ":"
               ++ Number_toString
                    (axisUnit (viewportSize (vunit w)) (reference e) * range_at j)%float
               ++ "px}").
Proof.
  intros Hmap Hplain Hi He Hj.
  exists (join (rules (viewportSize (vunit w)) m)).
  split; [now apply createCSSRules_object|].
  rewrite (rules_lines _ m Hplain). unfold written_rules.
  rewrite (nth_error_flat_map _ 100 _ i j selector); [| |exact Hi|exact Hj].
  - rewrite He, nth_error_map, (nth_error_ranges j Hj). reflexivity.
  - intros k Hk. destruct (lookup_key m k Hk) as [e' ->].
    now rewrite List.length_map.
Qed.

Lemma rule_position_witness :
  exists text,
    createCSSRules
      (sample_world (Some (only_CSSMap (VObject map_min_max))) viewport_800_400)
    = (Normal text,
       sample_world (Some (only_CSSMap (VObject map_min_max))) viewport_800_400)
    /\ nth_error (lines text) 109 = Some ".max10{font-size:80px}".
Proof.
  destruct (rule_position
              (sample_world (Some (only_CSSMap (VObject map_min_max))) viewport_800_400)
              map_min_max 1 9 ".max"
              (Build_RuleMapEntry "font-size" (VString "vmax"))
              eq_refl eq_refl eq_refl eq_refl ltac:(lia))
    as (text & Htext & Hline).
  exists text. split; [exact Htext|].
  refine (eq_trans Hline _). vm_compute. reflexivity.
Defined.

(** X13.  An entry whose reference is none of ['vw'], ['vh'], ['vmin'],
    ['vmax'] (misspelt, of another type, or missing) is no error: on a
    plain rule map made of such entries every one of the hundred rules of
    a selector has the value [0px], whatever the viewport. *)
Theorem unrecognized_reference (w : World) (m : RuleMap) :
  CSSMap (options (vunit w)) = VObject m ->
  plain_map m = true ->
  forallb (fun entry => negb (recognized (reference (snd entry)))) m = true ->
  exists text,
    createCSSRules w = (Normal text, w)
    /\ lines text
       = flat_map (fun selector =>
                     match lookup m selector with
                     | Some e =>
                         map (fun range =>
                                selector ++ Number_toString range ++ "{"
                                ++ property e ++ ":0px}")
                             ranges
                     | None => []
                     end)
                  (map fst m).
Proof.
  intros Hmap Hplain Hnone.
  exists (join (rules (viewportSize (vunit w)) m)).
  split; [now apply createCSSRules_object|].
  rewrite (rules_lines _ m Hplain). unfold written_rules.
  apply flat_map_ext_in. intros selector _.
  destruct (lookup m selector) as [e|] eqn:He; [|reflexivity].
  apply map_ext_in. intros range Hrange.
  rewrite forallb_forall in Hnone.
  specialize (Hnone _ (lookup_In _ _ _ He)). cbn [snd] in Hnone.
  unfold recognized in Hnone.
  rewrite negb_true_iff, !orb_false_iff in Hnone.
  destruct Hnone as [[[Hvw Hvh] Hvmin] Hvmax].
  unfold written_rule, axisUnit. cbv zeta. rewrite Hvw, Hvh, Hvmin, Hvmax.
  rewrite (proj1 (Forall_forall _ _) zero_times_range range Hrange).
  reflexivity.
Qed.

Lemma unrecognized_reference_witness :
  exists text,
    createCSSRules
      (sample_world (Some (only_CSSMap (VObject map_unrecognized))) viewport_800_400)
    = (Normal text,
       sample_world (Some (only_CSSMap (VObject map_unrecognized))) viewport_800_400)
    /\ nth_error (lines text) 0 = Some ".x1{width:0px}"
    /\ nth_error (lines text) 199 = Some ".y100{height:0px}".
Proof.
  destruct (unrecognized_reference
              (sample_world (Some (only_CSSMap (VObject map_unrecognized)))
                 viewport_800_400)
              map_unrecognized eq_refl eq_refl eq_refl)
    as (text & Htext & Hlines).
  exists text. split; [exact Htext|].
  rewrite Hlines. split; vm_compute; reflexivity.
Defined.

(** X14.  The text depends on the viewport only through the axes the map
    refers to: a rule map whose entries all refer to ['vw'] generates the
    same text for two viewports of equal width, whatever their heights,
    and one whose entries all refer to ['vh'] the same text for two
    viewports of equal height. *)
Theorem axis_independence (m : RuleMap) (a b : ViewportSize) :
  (only_axis "vw" m = true ->
   width a = width b ->
   generate a (VObject m) = generate b (VObject m))
  /\ (only_axis "vh" m = true ->
      height a = height b ->
      generate a (VObject m) = generate b (VObject m)).
Proof.
  unfold only_axis. split; intros Hall Hsame; rewrite !generate_object;
    do 2 f_equal; apply rules_ext; intros selector e Hin;
    rewrite forallb_forall in Hall; specialize (Hall _ Hin); cbn [snd] in Hall;
    rewrite (strict_equals_string_eq _ _ Hall); unfold axisUnit; cbn;
    now rewrite Hsame.
Qed.

Lemma axis_independence_witness :
  generate viewport_1000_500 (VObject map_vw)
  = generate viewport_1000_900 (VObject map_vw).
Proof.
  exact (proj1 (axis_independence map_vw viewport_1000_500 viewport_1000_900)
           eq_refl eq_refl).
Defined.

(** ** Degenerate configurations *)

(** X15.  A configured map without keys (an empty object, but also a
    truthy boolean, a number or a function, which [Object.keys] accepts)
    is no error: rule generation returns the empty text, and a cycle that
    detects a change still publishes a style element, an empty one, and
    calls [onResize], completing if [onResize] returns. *)
Theorem map_without_keys (w : World) :
  Object_keys (CSSMap (options (vunit w))) = Normal [] ->
  createCSSRules w = (Normal "", w)
  /\ (forall cb,
        fst (viewportHasChanged w) = Normal true ->
        onResize (options (vunit w)) = VFunction cb ->
        bearing (configured_id w) (dom (host w)) = [] ->
        fst (viewportObserver w)
        = (if throws cb {| height := clientHeight (host w);
                           width := clientWidth (host w) |}
           then Throw Thrown else Normal tt)
        /\ head (dom (host (snd (viewportObserver w))))
           = (head (dom (host w)) ++ [new_stylesheet w ""])%list
        /\ cssText (new_stylesheet w "") = ""
        /\ calls (host (snd (viewportObserver w)))
           = (calls (host w)
              ++ [(cb, {| height := clientHeight (host w);
                          width := clientWidth (host w) |})])%list).
Proof.
  intros Hkeys.
  assert (Hgen : forall v : World,
            CSSMap (options (vunit v)) = CSSMap (options (vunit w)) ->
            createCSSRules v = (Normal "", v)).
  { intros v Hv. unfold createCSSRules, bind, get, lift, ret.
    now rewrite Hv, Hkeys. }
  split; [now apply Hgen|].
  intros cb Hd%viewportHasChanged_differs Hcb Hnone.
  pose proof (Hgen (sampled w) eq_refl) as Hs.
  rewrite createCSSRules_generate in Hs. injection Hs as Hs.
  rewrite (viewportObserver_changed w "" Hd Hs).
  rewrite (publish_append _ _ _ Hnone), Hcb. cbn.
  repeat split. apply new_stylesheet_cssText.
Qed.

Lemma map_without_keys_witness :
  createCSSRules
    (sample_world (Some (only_CSSMap (VObject []))) viewport_1000_500)
  = (Normal "", sample_world (Some (only_CSSMap (VObject []))) viewport_1000_500)
  /\ createCSSRules
       (sample_world (Some (only_CSSMap (VBoolean true))) viewport_1000_500)
     = (Normal "",
        sample_world (Some (only_CSSMap (VBoolean true))) viewport_1000_500).
Proof.
  split.
  - exact (proj1 (map_without_keys
                    (sample_world (Some (only_CSSMap (VObject []))) viewport_1000_500)
                    eq_refl)).
  - exact (proj1 (map_without_keys
                    (sample_world (Some (only_CSSMap (VBoolean true)))
                       viewport_1000_500)
                    eq_refl)).
Defined.

Lemma or_else_idempotent (v default : value) :
  or_else (or_else v default) default = or_else v default.
Proof.
  unfold or_else. destruct (ToBoolean v) eqn:Hv; [now rewrite Hv|].
  now destruct (ToBoolean default).
Qed.

(** X16.  The resolved options hold no falsy value but a [null] rule map:
    the identifier, the interval and the callback are always truthy, and
    the rule map is [null] or truthy.  Resolving options that are already
    resolved changes nothing. *)
Theorem resolve_options_resolved (argument : option Options) :
  ToBoolean (stylesheetId (resolve_options argument)) = true
  /\ ToBoolean (viewportObserverInterval (resolve_options argument)) = true
  /\ ToBoolean (onResize (resolve_options argument)) = true
  /\ (CSSMap (resolve_options argument) = VNull
      \/ ToBoolean (CSSMap (resolve_options argument)) = true)
  /\ resolve_options (Some (resolve_options argument)) = resolve_options argument.
Proof.
  unfold resolve_options.
  cbn [stylesheetId viewportObserverInterval CSSMap onResize].
  repeat split; try (now apply or_else_truthy).
  - unfold or_else. destruct (ToBoolean (CSSMap _)) eqn:Hmap; [now right | now left].
  - now rewrite !or_else_idempotent.
Qed.

(** ** A well-configured instance *)

(** With the identifier out of the body, publication completes. *)
Lemma publish_completes (d : Document) (id : string) (e : Element) :
  filter (has_id id) (body d) = [] -> exists d', publish d id e = Normal d'.
Proof.
  intros Hbody. unfold publish, getElementById.
  destruct (String.eqb id ""); [now eexists|].
  destruct (find_index (has_id id) (head d)) as [i|]; [now eexists|].
  rewrite (find_index_filter_nil _ _ Hbody). now eexists.
Qed.

(** One cycle of a well-configured instance: the program itself does not
    throw, and what the configuration and the document were, they
    remain. *)
Lemma well_configured_cycle (sample : ViewportSize) (w : World) :
  well_configured w ->
  filter (has_id (configured_id w)) (body (dom (host w))) = [] ->
  (List.length (filter (has_id (configured_id w)) (head (dom (host w)))) <= 1)%nat ->
  (forall e, fst (cycle sample w) = Throw e -> e = Thrown)
  /\ (onResize_returns w -> fst (cycle sample w) = Normal tt)
  /\ well_configured (snd (cycle sample w))
  /\ onResize (options (vunit (snd (cycle sample w)))) = onResize (options (vunit w))
  /\ configured_id (snd (cycle sample w)) = configured_id w
  /\ filter (has_id (configured_id w)) (body (dom (host (snd (cycle sample w))))) = []
  /\ (List.length
        (filter (has_id (configured_id w)) (head (dom (host (snd (cycle sample w))))))
      <= 1)%nat.
Proof.
  intros ([m Hmap] & [cb Hcb] & Hid) Hbody Hhead.
  pose proof (cycle_outcome_of sample w) as Ho.
  destruct (cycle_outcome_options _ _ _ Ho) as [Hopt _].
  destruct (cycle_outcome_others _ _ _ Ho) as [Hb _].
  assert (Hone : (List.length (bearing (configured_id (resize sample w))
                                 (dom (host (resize sample w)))) <= 1)%nat).
  { unfold bearing. cbn [resize host with_client dom].
    change (configured_id (resize sample w)) with (configured_id w).
    rewrite filter_app, List.length_app, Hbody. cbn. lia. }
  pose proof (cycle_outcome_at_most_one (resize sample w) _ _ Hid Hone Ho)
    as Hafter.
  change (configured_id (resize sample w)) with (configured_id w) in Hafter.
  unfold bearing in Hafter. rewrite filter_app, List.length_app in Hafter.
  cbn [resize host with_client dom] in Hb.
  assert (Hsame : configured_id (snd (cycle sample w)) = configured_id w)
    by (unfold configured_id; now rewrite Hopt).
  assert (Hown : fst (cycle sample w) = Normal tt
                 \/ (fst (cycle sample w) = Throw Thrown
                     /\ exists cb', onResize (options (vunit w)) = VFunction cb'
                                    /\ throws cb' sample = true)).
  { inversion Ho as [Hu Hr Hw | e Hd Hg Hr Hw | text e Hd Hg Hp Hr Hw
                    | text d Hd Hg Hp Hno Hr Hw | text d cb' Hd Hg Hp Hyes Hret Hr Hw
                    | text d cb' Hd Hg Hp Hyes Hthrows Hr Hw];
      try (now left).
    - cbn [resize vunit] in Hg. rewrite Hmap, generate_object in Hg. discriminate.
    - destruct (publish_completes (dom (host (resize sample w)))
                  (configured_id (resize sample w))
                  (new_stylesheet (resize sample w) text)) as [d' Hd'];
        [exact Hbody | congruence].
    - cbn [resize vunit] in Hno. now contradiction (Hno cb).
    - right. split; [reflexivity|]. exists cb'.
      rewrite sampled_resize in Hthrows. now split. }
  split; [|split; [|split; [|split; [now rewrite Hopt|split; [exact Hsame|split]]]]].
  - intros e He. destruct Hown as [Hdone | [Hthrown _]]; congruence.
  - intros (cb' & Hcb' & Hret).
    destruct Hown as [Hdone | (_ & cb'' & Hcb'' & Hthrows)]; [exact Hdone|].
    rewrite Hcb' in Hcb''. injection Hcb'' as <-.
    now rewrite Hret in Hthrows.
  - unfold well_configured. rewrite Hopt, Hsame. repeat split; eauto.
  - now rewrite Hb.
  - lia.
Qed.

(** X17.  A well-configured instance throws nothing of its own.  With a
    rule map, a function as [onResize] and a non-empty identifier
    configured, on a document in which no element outside the head bears
    the identifier and at most one child of the head does, the only
    exception a cycle of any run can end with is the one [onResize]
    itself throws; if [onResize] returns whatever the size, every cycle
    of every run completes normally, whatever the viewport sizes
    sampled. *)
Theorem well_configured_never_throws (w : World) (samples : list ViewportSize)
    (sample : ViewportSize) :
  well_configured w ->
  filter (has_id (configured_id w)) (body (dom (host w))) = [] ->
  (List.length (filter (has_id (configured_id w)) (head (dom (host w)))) <= 1)%nat ->
  (forall e, fst (cycle sample (cycles samples w)) = Throw e -> e = Thrown)
  /\ (onResize_returns w -> fst (cycle sample (cycles samples w)) = Normal tt).
Proof.
  revert w. induction samples as [|first rest IH]; intros w Hgood Hbody Hhead.
  - destruct (well_configured_cycle sample w Hgood Hbody Hhead) as (H1 & H2 & _).
    exact (conj H1 H2).
  - cbn [cycles].
    destruct (well_configured_cycle first w Hgood Hbody Hhead)
      as (_ & _ & Hgood' & Hcb & Hsame & Hbody' & Hhead').
    destruct (IH (snd (cycle first w)) Hgood') as [IH1 IH2];
      [now rewrite Hsame | now rewrite Hsame |].
    split; [exact IH1|].
    intros (cb & Hyes & Hret). apply IH2. exists cb. split; [congruence | exact Hret].
Qed.

Lemma well_configured_never_throws_witness :
  fst (cycle viewport_0_0
         (cycles two_resizes
            (fresh (Some map_and_onResize) (browser empty_document viewport_0_0))))
  = Normal tt
  /\ (forall e,
        fst (cycle viewport_800_400
               (cycles [viewport_1000_500]
                  (fresh (Some map_and_throwing_onResize)
                     (browser empty_document viewport_0_0))))
        = Throw e -> e = Thrown).
Proof.
  split.
  - apply (well_configured_never_throws
             (fresh (Some map_and_onResize) (browser empty_document viewport_0_0))
             two_resizes viewport_0_0).
    + split; [now exists map_vw|]. split; [now exists (UserFn "report")|].
      discriminate.
    + reflexivity.
    + cbn. lia.
    + exists (UserFn "report"). split; reflexivity.
  - apply (well_configured_never_throws
             (fresh (Some map_and_throwing_onResize)
                (browser empty_document viewport_0_0))
             [viewport_1000_500] viewport_800_400).
    + split; [now exists map_vw|]. split; [now exists narrow|]. discriminate.
    + reflexivity.
    + cbn. lia.
Defined.

Lemma in_sync_cycle (sample : ViewportSize) (w : World) :
  well_configured w -> in_sync w -> in_sync (snd (cycle sample w)).
Proof.
  intros Hgood (Hbody & text0 & Hgen0 & Hhead0).
  assert (Hhead : (List.length (filter (has_id (configured_id w))
                                  (head (dom (host w)))) <= 1)%nat)
    by (rewrite Hhead0; cbn; lia).
  destruct (well_configured_cycle sample w Hgood Hbody Hhead)
    as (_ & _ & _ & _ & Hsame & Hbody' & _).
  pose proof (cycle_outcome_of sample w) as Ho.
  destruct (cycle_outcome_options _ _ _ Ho) as [Hopt Hleg].
  cbn [resize vunit host with_client legacy] in Hopt, Hleg.
  assert (Hnew : forall text,
            new_stylesheet (snd (cycle sample w)) text = new_stylesheet w text)
    by (intros text; unfold new_stylesheet; now rewrite Hsame, Hleg).
  unfold in_sync. rewrite Hsame, Hopt. split; [exact Hbody'|].
  enough (exists text,
             generate (viewportSize (vunit (snd (cycle sample w))))
               (CSSMap (options (vunit w))) = Normal text
             /\ filter (has_id (configured_id w))
                  (head (dom (host (snd (cycle sample w)))))
                = [new_stylesheet w text])
    as (text & H1 & H2) by (exists text; now rewrite Hnew).
  clear Hnew Hsame Hopt Hleg Hbody'.
  destruct Hgood as ([m Hmap] & [cb0 Hcb0] & Hid).
  assert (Hpublished : forall text d,
            publish (dom (host (resize sample w))) (configured_id (resize sample w))
              (new_stylesheet (resize sample w) text) = Normal d ->
            filter (has_id (configured_id w)) (head d) = [new_stylesheet w text]).
  { intros text d Hp.
    assert (Hone : (List.length (bearing (configured_id w) (dom (host w))) <= 1)%nat).
    { unfold bearing. rewrite filter_app, List.length_app, Hbody. cbn. lia. }
    pose proof (publish_bearing _ _ _ _ Hid
                  (new_stylesheet_has_id (resize sample w) text) Hone Hp) as Hb.
    unfold bearing in Hb. rewrite filter_app in Hb.
    rewrite (publish_body _ _ _ _ Hp) in Hb.
    cbn [resize host with_client dom] in Hb. rewrite Hbody, app_nil_r in Hb.
    exact Hb. }
  revert Ho.
  generalize (fst (cycle sample w)) as r. generalize (snd (cycle sample w)) as w'.
  intros w' r Ho.
  inversion Ho as [Hu Hr Hw | e Hd Hg Hr Hw | text e Hd Hg Hp Hr Hw
                  | text d Hd Hg Hp Hno Hr Hw | text d cb Hd Hg Hp Hcb Hret Hr Hw
                  | text d cb Hd Hg Hp Hcb Hthrows Hr Hw]; subst w'.
  - (* nothing changed: the sample is the stored size *)
    exists text0. split; [|exact Hhead0].
    apply differs_false in Hu.
    cbn [resize host vunit with_client clientHeight clientWidth] in Hu.
    destruct Hu as [Hh Hw'].
    cbn [sampled vunit viewportSize resize host with_client clientHeight
         clientWidth options].
    rewrite Hh, Hw'. now destruct (viewportSize (vunit w)).
  - (* rule generation cannot throw on a rule map *)
    cbn [resize vunit] in Hg. rewrite Hmap, generate_object in Hg. discriminate.
  - (* publication cannot throw with the identifier out of the body *)
    destruct (publish_completes (dom (host (resize sample w)))
                (configured_id (resize sample w))
                (new_stylesheet (resize sample w) text)) as [d' Hd'];
      [exact Hbody | congruence].
  - (* [onResize] is a function *)
    cbn [resize vunit] in Hno. now contradiction (Hno cb0).
  - (* published, [onResize] returned *)
    exists text. split; [exact Hg|].
    cbn [host dom with_call with_dom]. now apply Hpublished.
  - (* published, [onResize] threw *)
    exists text. split; [exact Hg|].
    cbn [host dom with_call with_dom]. now apply Hpublished.
Qed.

(** X18.  The published rules follow the stored viewport.  For a
    well-configured instance, if the element bearing the identifier is a
    child of the head holding the rules generated for the stored viewport
    size, the same is true after any run of cycles: the one style element
    bearing the identifier holds the rules for the size last sampled. *)
Theorem in_sync_kept (w : World) (samples : list ViewportSize) :
  well_configured w -> in_sync w ->
  in_sync (cycles samples w)
  /\ viewportSize (vunit (cycles samples w))
     = List.last samples (viewportSize (vunit w)).
Proof.
  intros Hgood Hsync. split.
  - revert w Hgood Hsync.
    induction samples as [|sample rest IH]; intros w Hgood Hsync; [exact Hsync|].
    cbn [cycles]. apply IH.
    + destruct Hsync as (Hbody & text & _ & Hhead).
      refine (proj1 (proj2 (proj2 (well_configured_cycle sample w Hgood Hbody _)))).
      rewrite Hhead. cbn. lia.
    + now apply in_sync_cycle.
  - revert w Hgood Hsync.
    induction samples as [|sample rest IH]; intros w Hgood Hsync; [reflexivity|].
    cbn [cycles].
    destruct Hsync as (Hbody & text & Hgen & Hhead).
    assert (Hone : (List.length (filter (has_id (configured_id w))
                                   (head (dom (host w)))) <= 1)%nat)
      by (rewrite Hhead; cbn; lia).
    rewrite IH.
    + rewrite (cycle_outcome_viewportSize _ _ _ (cycle_outcome_of sample w)).
      destruct sample as [hs ws]. cbn [resize host with_client clientHeight
                                       clientWidth height width].
      apply last_cons_default.
    + exact (proj1 (proj2 (proj2 (well_configured_cycle sample w Hgood Hbody Hone)))).
    + apply in_sync_cycle; [exact Hgood|].
      split; [exact Hbody|]. now exists text.
Qed.

Lemma in_sync_kept_witness :
  in_sync
    (cycles two_resizes
       (snd (cycle viewport_1000_900
               (fresh (Some map_and_onResize) (browser empty_document viewport_0_0))))).
Proof.
  apply (in_sync_kept
           (snd (cycle viewport_1000_900
                   (fresh (Some map_and_onResize)
                      (browser empty_document viewport_0_0))))
           two_resizes).
  - split; [now exists map_vw|]. split; [now exists (UserFn "report")|]. discriminate.
  - split; [reflexivity|].
    eexists. split; [apply generate_object|]. vm_compute. reflexivity.
Defined.
